(** * generate_loc_stats: statistics acquisition, cache and aggregation

    A shallow embedding of [scripts/generate_loc_stats.py].  Python
    dictionaries are finite maps ([gmap]) where only lookups and updates
    matter and their [items()] are the map's list of bindings; strings
    are sequences of code points below 256; integers are [Z]; a float is
    the rational number the double denotes, with the rounding of the
    operation that made it written out; exceptions
    are values of [Exn] carried by an error monad; the network, the
    clock, git and the cache file are an explicit environment and an
    explicit world that the effectful functions thread through. *)

From stdpp Require Import gmap strings list fin_maps sorting.
From Stdlib Require Import ZArith Ascii.
From Stdlib Require Import QArith Qround Qabs Qpower Lqa.
From Stdlib Require DecimalString DecimalPos.

Local Open Scope Z_scope.

(** ** Strings: the built-ins the script uses

    A character is an [ascii], read as the code point of the same number
    (0 to 255).  The character classes below are the ones of Python 3 on
    that range. *)

Module Py.

Definition code (c : ascii) : Z := Z.of_N (N_of_ascii c).

Definition between (lo hi : Z) (c : ascii) : bool :=
  (lo <=? code c) && (code c <=? hi).

(** [str.isspace] on one character; what [str.strip()] removes. *)
Definition isspace (c : ascii) : bool :=
  between 9 13 c || between 28 32 c || (code c =? 133) || (code c =? 160).

(** The blanks [int()] accepts around a literal: the separators
    28 to 31 are not among them. *)
Definition int_blank (c : ascii) : bool :=
  between 9 13 c || (code c =? 32) || (code c =? 133) || (code c =? 160).

(** The line boundaries of [str.splitlines()]. *)
Definition linebreak (c : ascii) : bool :=
  between 10 13 c || between 28 30 c || (code c =? 133).

Definition decimal (c : ascii) : bool := between 48 57 c.

(** [str.isdigit] on one character: the decimal digits and the
    superscripts one, two and three. *)
Definition digit_char (c : ascii) : bool :=
  decimal c || (code c =? 178) || (code c =? 179) || (code c =? 185).

Definition lower_char (c : ascii) : ascii :=
  if between 65 90 c || (between 192 222 c && negb (code c =? 215))
  then ascii_of_N (N_of_ascii c + 32)
  else c.

Fixpoint lower (s : string) : string :=
  match s with
  | EmptyString => EmptyString
  | String c r => String (lower_char c) (lower r)
  end.

Fixpoint lstrip (blank : ascii -> bool) (s : string) : string :=
  match s with
  | EmptyString => EmptyString
  | String c r => if blank c then lstrip blank r else s
  end.

Fixpoint rstrip (blank : ascii -> bool) (s : string) : string :=
  match s with
  | EmptyString => EmptyString
  | String c r =>
      match rstrip blank r with
      | EmptyString => if blank c then EmptyString else String c EmptyString
      | r' => String c r'
      end
  end.

(** [s.strip()] *)
Definition strip (s : string) : string := rstrip isspace (lstrip isspace s).

Fixpoint all_chars (p : ascii -> bool) (s : string) : bool :=
  match s with
  | EmptyString => true
  | String c r => p c && all_chars p r
  end.

(** [s.isdigit()]: at least one character, and all of them digits. *)
Definition isdigit (s : string) : bool :=
  match s with
  | EmptyString => false
  | _ => all_chars digit_char s
  end.

(** [s.split(sep)] for a one-character separator: never an empty list. *)
Fixpoint split (sep : ascii) (s : string) : list string :=
  match s with
  | EmptyString => [EmptyString]
  | String c r =>
      if Ascii.eqb c sep then EmptyString :: split sep r
      else match split sep r with
           | p :: ps => String c p :: ps
           | [] => [String c EmptyString]
           end
  end.

(** [s.splitlines()]: [cur] is the line read so far, reversed.  A carriage
    return followed by a line feed is one boundary, and text after the last
    boundary is a line only when it is not empty. *)
Fixpoint splitlines_from (cur : string) (s : string) : list string :=
  match s with
  | EmptyString =>
      match cur with EmptyString => [] | _ => [String.rev cur] end
  | String c r =>
      if linebreak c then
        String.rev cur ::
          match r with
          | String d r' =>
              if (code c =? 13) && (code d =? 10)
              then splitlines_from EmptyString r'
              else splitlines_from EmptyString r
          | EmptyString => splitlines_from EmptyString r
          end
      else splitlines_from (String c cur) r
  end.

Definition splitlines (s : string) : list string :=
  splitlines_from EmptyString s.

Definition digit_val (c : ascii) : Z := code c - 48.

(** The digits of an integer literal after the first one: single
    underscores are allowed between digits. *)
Fixpoint digits_from (acc : Z) (s : string) : option Z :=
  match s with
  | EmptyString => Some acc
  | String c r =>
      if decimal c then digits_from (10 * acc + digit_val c) r
      else if code c =? 95 then
        match r with
        | String d r' =>
            if decimal d then digits_from (10 * acc + digit_val d) r'
            else None
        | EmptyString => None
        end
      else None
  end.

Definition digits (s : string) : option Z :=
  match s with
  | String c r => if decimal c then digits_from (digit_val c) r else None
  | EmptyString => None
  end.

(** [int(s)] in base ten: [None] stands for [ValueError].  Blanks around
    the literal, one sign, then digits.  (The interpreter's optional cap on
    the number of digits is not part of the model.) *)
Definition int (s : string) : option Z :=
  match rstrip int_blank (lstrip int_blank s) with
  | String c r =>
      if code c =? 45 then Z.opp <$> digits r
      else if code c =? 43 then digits r
      else digits (String c r)
  | EmptyString => None
  end.

(** [needle in hay] for two strings. *)
Fixpoint contains (needle hay : string) : bool :=
  String.prefix needle hay ||
  match hay with
  | EmptyString => false
  | String _ r => contains needle r
  end.

(** [str(n)] for an integer. *)
Definition str (n : Z) : string :=
  DecimalString.NilZero.string_of_int (Z.to_int n).

End Py.

(** ** Floats: true division and [int()]

    A [float] is an IEEE double; a finite double is a rational number,
    and the model keeps it as that number.  The range of the exponent is
    not modelled: the only floats of the script are timestamps, which
    [datetime] keeps within 2^38 seconds of the epoch. *)

Module Float.

Local Open Scope Q_scope.

(** The integer nearest to [x], the even one of the two when [x] is half
    way between them. *)
Definition round_half_even (x : Q) : Z :=
  let f := Qfloor x in
  match Qcompare (x - inject_Z f) (1 # 2) with
  | Lt => f
  | Gt => (f + 1)%Z
  | Eq => if Z.even f then f else (f + 1)%Z
  end.

(** The binary exponent of a positive number: the [k] with
    [2^k <= x < 2^(k+1)]. *)
Definition ilog2 (x : Q) : Z :=
  let k := (Z.log2 (Qnum x) - Z.log2 (Zpos (Qden x)))%Z in
  if Qle_bool (2 ^ k) x then k else (k - 1)%Z.

(** The double nearest to [x]: 53 significant bits, ties to even. *)
Definition nearest_double (x : Q) : Q :=
  if Qeq_bool x 0 then 0
  else
    let e := (ilog2 (Qabs x) - 52)%Z in
    inject_Z (Z.sgn (Qnum x) * round_half_even (Qabs x / 2 ^ e)) * 2 ^ e.

(** [a / b] of two ints, [b] positive: the quotient, correctly rounded. *)
Definition true_div (a b : Z) : Q := nearest_double (a # Z.to_pos b).

(** [int(x)] of a float: towards zero. *)
Definition int_of_float (x : Q) : Z := Z.quot (Qnum x) (Zpos (Qden x)).

End Float.

(** ** Exceptions

    What a Python call raises.  [OutOfRange] stands for the [ValueError],
    [OverflowError] or [OSError] of [datetime.fromtimestamp] on a timestamp
    past year 9999; the script has a handler for none of the three. *)

Inductive Exn : Type :=
| ValueError
| KeyError
| AttributeError
| TypeError
| UnicodeDecodeError
| OutOfRange
| ConnectionError
| HTTPError (status : Z)
| ExnTimeoutExpired       (* subprocess.TimeoutExpired *)
| ExnCalledProcessError   (* subprocess.CalledProcessError *)
| SystemExit (code : Z).

Inductive Exc (A : Type) : Type :=
| Done (a : A)
| Raise (e : Exn).
Arguments Done {A} a.
Arguments Raise {A} e.

#[global] Instance Exc_ret : MRet Exc := @Done.
#[global] Instance Exc_bind : MBind Exc := λ A B f m,
  match m with
  | Done a => f a
  | Raise e => Raise e
  end.

(** [int(s)] as a computation: [ValueError] when [s] is no literal. *)
Definition int_of (s : string) : Exc Z :=
  match Py.int s with
  | Some n => Done n
  | None => Raise ValueError
  end.

(** A [for] loop over [l] whose body updates the loop state and may raise. *)
Fixpoint for_each {A S : Type} (l : list A) (body : A → S → Exc S) (s : S)
  : Exc S :=
  match l with
  | [] => Done s
  | x :: l' => s' ← body x s; for_each l' body s'
  end.

(** ** The cache

    The dictionaries of [data/loc-cache.json].  A field the script reads
    with [.get(key, default)] is an [option]: [None] is the missing key.
    Times are microseconds since the epoch; the ISO text the script stores
    is a rendering of that number. *)

Record WeekBucket : Type := mkWeek {
  wk_a : option Z;   (* "a" *)
  wk_d : option Z    (* "d" *)
}.

Record RepoEntry : Type := mkEntry {
  etag : option string;
  is_private : bool;
  weeks : option (gmap string WeekBucket);
  last_fetched : Z
}.

Record Cache : Type := mkCache {
  repos : option (gmap string RepoEntry);
  last_updated : option Z
}.

(** [{}] *)
Definition empty_cache : Cache := mkCache None None.

#[global] Instance WeekBucket_eq_dec : EqDecision WeekBucket.
Proof. solve_decision. Defined.
#[global] Instance RepoEntry_eq_dec : EqDecision RepoEntry.
Proof. solve_decision. Defined.
#[global] Instance Cache_eq_dec : EqDecision Cache.
Proof. solve_decision. Defined.

(** ** Aggregation *)

Definition TIME_FRAMES : list (string * Z) :=
  [("All Time", 0); ("Last Year", 365); ("Last Month", 30); ("Last Week", 7)].

(** One entry of [result]: the key ["total"] is added last. *)
Record Frame : Type := mkFrame {
  additions : Z;
  deletions : Z;
  total : option Z
}.

Definition second_us : Z := 1000000.
Definition day_us : Z := 86400 * second_us.

(** [dt.timestamp()] of an aware datetime [us] microseconds from the epoch:
    [(dt - _EPOCH).total_seconds()], which is the number of microseconds
    divided by [10**6], a float. *)
Definition timestamp (us : Z) : Q := Float.true_div us second_us.

(** [int((now - timedelta(days=days)).timestamp())], [now] in microseconds.
    The float is the double nearest to the exact quotient, so the result
    is one more than the whole seconds when the microseconds are within
    half a unit in the last place of the next second, which happens from
    2^34 seconds (year 2514) on. *)
Definition days_before (now days : Z) : Z :=
  Float.int_of_float (timestamp (now - days * day_us)).

Definition boundaries (now : Z) : list (string * Z) :=
  (λ '(label, days),
     (label, if days =? 0 then 0 else days_before now days)) <$> TIME_FRAMES.

(** [result[label]["additions"] += week.get("a", 0)] and the same for
    deletions. *)
Definition add_week (week : WeekBucket) (r : Frame) : Frame :=
  mkFrame (additions r + default 0 (wk_a week))
          (deletions r + default 0 (wk_d week))
          (total r).

(** The innermost loop: [for label, start_ts in boundaries.items()]. *)
Definition count_week (week_ts : Z) (week : WeekBucket)
    (bounds : list (string * Z)) (result : gmap string Frame)
  : gmap string Frame :=
  foldl (λ res '(label, start_ts),
           if week_ts >=? start_ts then alter (add_week week) label res
           else res)
        result bounds.

Definition scan_weeks (bounds : list (string * Z))
    (weeks : list (string * WeekBucket)) (result : gmap string Frame)
  : Exc (gmap string Frame) :=
  for_each weeks
    (λ '(week_ts_str, week) res,
       week_ts ← int_of week_ts_str;
       mret (count_week week_ts week bounds res))
    result.

Definition with_total (r : Frame) : Frame :=
  mkFrame (additions r) (deletions r) (Some (additions r + deletions r)).

Definition compute_timeframes (now : Z) (cache : Cache)
  : Exc (gmap string Frame) :=
  let bounds := boundaries now in
  let result : gmap string Frame :=
    list_to_map ((λ '(label, _), (label, mkFrame 0 0 None)) <$> TIME_FRAMES) in
  let repos := default ∅ (repos cache) in
  result ← for_each (map_to_list repos)
    (λ '(repo_name, repo_data) res,
       let weeks := default ∅ (weeks repo_data) in
       scan_weeks bounds (map_to_list weeks) res)
    result;
  mret (foldl (λ res '(label, _), alter with_total label res)
              result TIME_FRAMES).

(** *** What the aggregator is compared with *)

(** Every week bucket of every cached repository, under its key. *)
Definition buckets (cache : Cache) : list (string * WeekBucket) :=
  '(_, repo_data) ← map_to_list (default ∅ (repos cache));
  map_to_list (default ∅ (weeks repo_data)).

Definition adds (week : WeekBucket) : Z := default 0 (wk_a week).
Definition dels (week : WeekBucket) : Z := default 0 (wk_d week).

(** The sum of [f] over all the buckets of [l]. *)
Definition sum_all (f : WeekBucket → Z) (l : list (string * WeekBucket)) : Z :=
  foldr (λ kw acc, f kw.2 + acc) 0 l.

(** The key is an integer literal of value at least [start_ts]. *)
Definition starts_from (start_ts : Z) (key : string) : bool :=
  match Py.int key with
  | Some week_ts => week_ts >=? start_ts
  | None => false
  end.

(** The sum of [f] over the buckets of [l] that start at [start_ts] or
    later. *)
Definition sum_from (start_ts : Z) (f : WeekBucket → Z)
    (l : list (string * WeekBucket)) : Z :=
  foldr (λ kw acc, if starts_from start_ts kw.1 then f kw.2 + acc else acc)
        0 l.

(** Every week key reads as an integer, so that no [int()] raises. *)
Definition keys_are_integers (cache : Cache) : Prop :=
  Forall (λ kw, is_Some (Py.int kw.1)) (buckets cache).

Definition nonnegative_counts (cache : Cache) : Prop :=
  Forall (λ kw, 0 ≤ adds kw.2 ∧ 0 ≤ dels kw.2) (buckets cache).

(** A frame moved by given amounts. *)
Definition shifted (da dd : Z) (r : Frame) : Frame :=
  mkFrame (additions r + da) (deletions r + dd) (total r).

(** The lower bound of the window of [days] days at time [now]. *)
Definition start_of (now days : Z) : Z :=
  if days =? 0 then 0 else days_before now days.

(** One window's frame is below another's, field by field. *)
Definition frame_le (f g : Frame) : Prop :=
  additions f ≤ additions g ∧ deletions f ≤ deletions g ∧
  ∃ tf tg, total f = Some tf ∧ total g = Some tg ∧ tf ≤ tg.

(** A cache with one week that starts before the epoch. *)
Definition cache_before_epoch : Cache :=
  mkCache (Some {[ "octo/old" :=
            mkEntry None false
              (Some {[ "-604800" := mkWeek (Some 1) (Some 2) ]}) 0 ]})
          None.

(** ** The outside world

    What the script reads from the network, git, the clock and the disk
    is an environment of oracles; each oracle is given the trace of the
    effects performed so far, so that its answers may depend on the whole
    history of the run. *)

(** One week of the statistics endpoint, or of the history walk:
    [{"w": .., "a": .., "d": ..}]. *)
Record ApiWeek : Type := mkApiWeek {
  w_w : option Z;
  w_a : option Z;
  w_d : option Z
}.

(** The ["author"] of a contributor object: absent, [null], or an object
    with or without a ["login"]. *)
Inductive AuthorField : Type :=
| AuthorMissing
| AuthorNull
| AuthorObject (login : option string).

Record Contributor : Type := mkContributor {
  author : AuthorField;
  contributor_weeks : option (list ApiWeek)
}.

Record Response : Type := mkResponse {
  status_code : Z;
  header_etag : option string;        (* ETag *)
  header_remaining : option string;   (* X-RateLimit-Remaining *)
  header_reset : option string;       (* X-RateLimit-Reset *)
  json : list Contributor             (* resp.json() of a 200 answer *)
}.

Record Request : Type := mkRequest {
  url : string;
  bearer : string;
  if_none_match : option string
}.

Inductive HttpOutcome : Type :=
| Answered (resp : Response)
| Unreachable.                        (* requests raises ConnectionError *)

(** A repository of the listing endpoint. *)
Record Repo : Type := mkRepo {
  full_name : string;
  private : option bool
}.

Inductive GitCommand : Type :=
| GitCloneBare (token repo_full_name : string)
| GitLogNumstat (author_name : string).

(** How [subprocess.run(..., check=True, timeout=300)] ends. *)
Inductive RunOutcome : Type :=
| Completed (stdout : string)
| TimeoutExpired
| CalledProcessError.

(** A JSON value that is not an object. *)
#[warnings="-register-all"]
Inductive Json : Type :=
| JNull
| JBool (b : bool)
| JNumber (n : Z)
| JString (s : string)
| JArray (items : list Json).

(** What [json.load] returns: a dictionary of the cache's shape, or a
    value that is no dictionary.  (Objects of another shape are outside the
    model.) *)
Inductive Value : Type :=
| Dict (c : Cache)
| NotDict (v : Json).

(** What the cache file holds. *)
Inductive FileContent : Type :=
| EmptyFile                 (* no bytes: the state right after open(.., "w") *)
| PartialText               (* the beginning of a JSON text *)
| BrokenText                (* any other text json.load rejects *)
| BadBytes                  (* bytes the text decoder rejects *)
| JsonText (v : Value).     (* a JSON text and the value it denotes *)

Inductive FileOp : Type :=
| MakeDirs                  (* CACHE_PATH.parent.mkdir(parents=True, exist_ok=True) *)
| OpenForWriting            (* open(CACHE_PATH, "w") *)
| WriteSome                 (* json.dump has written part of the text *)
| WriteAll (c : Cache).     (* json.dump has written all of it; the file is closed *)

Inductive Event : Type :=
| Requested (rq : Request)
| Slept (seconds : Z)
| Listed (token : string)
| Mkdtemp
| Ran (cmd : GitCommand)
| Rmtree
| WroteSvg
| CacheFile (op : FileOp).

Record World : Type := mkWorld {
  trace : list Event;                       (* newest first *)
  cache_file : option FileContent;          (* data/loc-cache.json *)
  svg_file : option (gmap string Frame)     (* loc-stats.svg, by the stats it shows *)
}.

Record Env : Type := mkEnv {
  GITHUB_USER : string;
  TOKENS : list (string * string);
  (** microseconds since the epoch: time.time() and datetime.now() *)
  clock : list Event → Z;
  (** requests.get on the statistics endpoint *)
  remote : list Event → Request → HttpOutcome;
  (** list_user_repos, as a whole *)
  listing : list Event → string → Exc (list Repo);
  (** subprocess.run *)
  git : list Event → GitCommand → RunOutcome
}.

(** ** Effectful computations: state and exceptions *)

Definition M (A : Type) : Type := World → Exc A * World.

#[global] Instance M_ret : MRet M := λ A a w, (Done a, w).
#[global] Instance M_bind : MBind M := λ A B f m w,
  match m w with
  | (Done a, w') => f a w'
  | (Raise e, w') => (Raise e, w')
  end.

Definition raise {A : Type} (e : Exn) : M A := λ w, (Raise e, w).

Definition lift {A : Type} (x : Exc A) : M A := λ w, (x, w).

(** The world once [ev] has happened. *)
Definition after (ev : Event) (w : World) : World :=
  mkWorld (ev :: trace w) (cache_file w) (svg_file w).

Definition emit (ev : Event) : M () := λ w, (Done (), after ev w).

Definition history : M (list Event) := λ w, (Done (trace w), w).

(** [try: body except ...: handler]: [handler e] is [None] when no clause
    matches [e]. *)
Definition try_except {A : Type} (body : M A) (handler : Exn → option (M A))
  : M A := λ w,
  match body w with
  | (Raise e, w') =>
      match handler e with
      | Some h => h w'
      | None => (Raise e, w')
      end
  | done => done
  end.

(** [try: body finally: cleanup] *)
Definition try_finally {A : Type} (body : M A) (cleanup : M ()) : M A := λ w,
  match body w with
  | (r, w') =>
      match cleanup w' with
      | (Done _, w'') => (r, w'')
      | (Raise e, w'') => (Raise e, w'')
      end
  end.

(** A [for] loop whose body has effects. *)
Fixpoint for_eachM {A S : Type} (l : list A) (body : A → S → M S) (s : S)
  : M S :=
  match l with
  | [] => mret s
  | x :: l' => s' ← body x s; for_eachM l' body s'
  end.

(** ** Configuration *)

Definition API_BASE : string := "https://api.github.com".
Definition PASS2_WAIT : Z := 10.
Definition RATE_LIMIT_FLOOR : Z := 100.

(** ** The history walk: reading [git log --numstat] *)

(** The last second [datetime.fromtimestamp] accepts: the end of year
    9999. *)
Definition MAX_TIMESTAMP : Z := 253402300799.

(** [dt.weekday()] of the instant [ts], Monday being 0: the epoch was a
    Thursday. *)
Definition weekday (ts : Z) : Z := (ts `div` 86400 + 3) `mod` 7.

(** [dt - timedelta(days=dt.weekday())], then midnight of that day. *)
Definition week_ts_of (ts : Z) : Z :=
  let week_start := ts - weekday ts * 86400 in
  week_start - week_start `mod` 86400.

(** [int(p) if p != "-" else 0] *)
Definition change_count (p : string) : Exc Z :=
  if bool_decide (p = "-") then Done 0 else int_of p.

Definition tab : ascii := Ascii.ascii_of_nat 9.

(** The body of the loop over the lines of the log: [weekly] maps a week
    start to its pair of sums. *)
Definition numstat_line (line : string)
    (st : gmap Z (Z * Z) * option Z) : Exc (gmap Z (Z * Z) * option Z) :=
  let '(weekly, current_ts) := st in
  let line := Py.strip line in
  if bool_decide (line = "") then mret st
  else if Py.isdigit line then
    ts ← int_of line; mret (weekly, Some ts)
  else
    match Py.split tab line, current_ts with
    | p0 :: p1 :: _ :: _, Some ts =>
        match (adds ← change_count p0;
               dels ← change_count p1;
               mret (adds, dels)) with
        | Raise ValueError => mret st
        | Raise e => Raise e
        | Done (adds, dels) =>
            if ts >? MAX_TIMESTAMP then Raise OutOfRange
            else
              let week_ts := week_ts_of ts in
              let weekly :=
                match weekly !! week_ts with
                | None => <[week_ts := (0, 0)]> weekly
                | Some _ => weekly
                end in
              mret (alter (λ '(a, d), (a + adds, d + dels)) week_ts weekly,
                    current_ts)
        end
    | _, _ => mret st
    end.

(** The order of [sorted] on the items of a dictionary with integer keys:
    the keys are distinct, so the values are never compared. *)
Definition by_week {A : Type} (x y : Z * A) : Prop := x.1 ≤ y.1.

#[global] Instance by_week_dec {A : Type} (x y : Z * A) : Decision (by_week x y).
Proof. unfold by_week. apply _. Defined.

(** [[{"w": ts, "a": .., "d": ..} for ts, data in sorted(weekly.items())]] *)
Definition weeks_of (weekly : gmap Z (Z * Z)) : list ApiWeek :=
  (λ '(ts, (a, d)), mkApiWeek (Some ts) (Some a) (Some d))
    <$> merge_sort by_week (map_to_list weekly).

Definition parse_numstat (stdout : string) : Exc (list ApiWeek) :=
  st ← for_each (Py.splitlines stdout) numstat_line (∅, None);
  mret (weeks_of st.1).

(** ** The script *)

Section Script.

Context (env : Env).

(** [datetime.now(timezone.utc)], in microseconds. *)
Definition datetime_now : M Z := λ w, (Done (clock env (trace w)), w).

(** [int(time.time())] *)
Definition time_time : M Z := λ w,
  (Done (Z.quot (clock env (trace w)) second_us), w).

Definition time_sleep (seconds : Z) : M () := emit (Slept seconds).

(** [requests.get(url, headers=headers, timeout=30)] *)
Definition requests_get (rq : Request) : M Response :=
  tr ← history;
  _ ← emit (Requested rq);
  match remote env tr rq with
  | Answered resp => mret resp
  | Unreachable => raise ConnectionError
  end.

(** [subprocess.run(cmd, capture_output=True, text=True, check=True,
    timeout=300)]: the exceptions of the two bad ends are [CalledProcessError]
    and [TimeoutExpired]. *)
Definition subprocess_run (cmd : GitCommand) : M RunOutcome :=
  tr ← history;
  _ ← emit (Ran cmd);
  mret (git env tr cmd).

Definition _check_rate_limit (resp : Response) (token_label : string) : M () :=
  match header_remaining resp with
  | Some remaining =>
      remaining ← lift (int_of remaining);
      if remaining <? RATE_LIMIT_FLOOR then
        reset_ts ← lift (match header_reset resp with
                         | Some reset => int_of reset
                         | None => Done 0
                         end);
        t ← time_time;
        let wait := Z.max (reset_ts - t) 1 in
        time_sleep wait
      else mret ()
  | None => mret ()
  end.

(** [resp.raise_for_status()] *)
Definition raise_for_status (resp : Response) : M () :=
  if (400 <=? status_code resp) && (status_code resp <? 600)
  then raise (HTTPError (status_code resp))
  else mret ().

(** [contrib.get("author", {}).get("login", "")] *)
Definition login_of (contrib : Contributor) : Exc string :=
  match author contrib with
  | AuthorMissing => Done ""
  | AuthorNull => Raise AttributeError
  | AuthorObject login => Done (default "" login)
  end.

(** The loop over the contributors of a 200 answer: the weeks of the first
    one whose login is the user's, the empty list when there is none. *)
Fixpoint weeks_for_user (contributors : list Contributor)
  : Exc (list ApiWeek) :=
  match contributors with
  | [] => Done []
  | contrib :: rest =>
      login ← login_of contrib;
      if bool_decide (Py.lower login = Py.lower (GITHUB_USER env))
      then Done (default [] (contributor_weeks contrib))
      else weeks_for_user rest
  end.

Definition stats_request (token repo_full_name : string)
    (etag : option string) : Request :=
  mkRequest (API_BASE +:+ "/repos/" +:+ repo_full_name +:+ "/stats/contributors")
            token
            (match etag with
             | Some "" => None          (* [if etag:] *)
             | other => other
             end).

Definition get_contributor_stats (token repo_full_name : string)
    (etag : option string) : M (option (list ApiWeek) * option string * Z) :=
  resp ← requests_get (stats_request token repo_full_name etag);
  let status := status_code resp in
  let new_etag := header_etag resp in
  if status =? 304 then mret (None, etag, 304)
  else if status =? 202 then mret (None, new_etag, 202)
  else if status =? 200 then
    _ ← _check_rate_limit resp repo_full_name;
    weeks ← lift (weeks_for_user (json resp));
    mret (Some weeks, new_etag, 200)
  else
    _ ← raise_for_status resp;
    mret (None, new_etag, status).

Definition clone_and_count (token repo_full_name : string)
  : M (list ApiWeek) :=
  _ ← emit Mkdtemp;
  try_finally
    (try_except
       (cloned ← subprocess_run (GitCloneBare token repo_full_name);
        match cloned with
        | TimeoutExpired => raise ExnTimeoutExpired
        | CalledProcessError => raise ExnCalledProcessError
        | Completed _ =>
            result ← subprocess_run (GitLogNumstat (GITHUB_USER env));
            match result with
            | TimeoutExpired => raise ExnTimeoutExpired
            | CalledProcessError => raise ExnCalledProcessError
            | Completed stdout => lift (parse_numstat stdout)
            end
        end)
       (λ e, match e with
             | ExnTimeoutExpired => Some (mret [])
             | ExnCalledProcessError => Some (mret [])
             | _ => None
             end))
    (emit Rmtree).

(** *** Cache management *)

Definition load_cache : M Value := λ w,
  match cache_file w with
  | Some content =>
      match content with
      | JsonText v => (Done v, w)
      | BadBytes => (Raise UnicodeDecodeError, w)
      | EmptyFile | PartialText | BrokenText =>
          (Done (Dict empty_cache), w)    (* except json.JSONDecodeError *)
      end
  | None => (Done (Dict empty_cache), w)
  end.

(** What one step of writing does to the cache file. *)
Definition file_step (f : option FileContent) (op : FileOp)
  : option FileContent :=
  match op with
  | MakeDirs => f
  | OpenForWriting => Some EmptyFile
  | WriteSome => Some PartialText
  | WriteAll c => Some (JsonText (Dict c))
  end.

Definition file_op (op : FileOp) : M () := λ w,
  (Done (), mkWorld (CacheFile op :: trace w)
                    (file_step (cache_file w) op) (svg_file w)).

(** The steps of [save_cache] on the disk, once [last_updated] is set. *)
Definition save_steps (cache : Cache) : list FileOp :=
  [OpenForWriting; WriteSome; WriteAll cache].

Definition save_cache (cache : Cache) : M Cache :=
  _ ← file_op MakeDirs;
  now ← datetime_now;
  let cache := mkCache (repos cache) (Some now) in
  _ ← for_eachM (save_steps cache) (λ op _, file_op op) ();
  mret cache.

(** *** Main *)

(** [cache["repos"]] *)
Definition repos_of (cache : Cache) : Exc (gmap string RepoEntry) :=
  match repos cache with
  | Some repos => Done repos
  | None => Raise KeyError
  end.

(** The truth value of [cached_repo.get("weeks")]. *)
Definition has_weeks (cached_repo : option RepoEntry) : bool :=
  match cached_repo ≫= weeks with
  | Some weeks => negb (bool_decide (weeks = ∅))
  | None => false
  end.

Definition sum_a (weeks : list ApiWeek) : Z :=
  foldr (λ w acc, default 0 (w_a w) + acc) 0 weeks.
Definition sum_d (weeks : list ApiWeek) : Z :=
  foldr (λ w acc, default 0 (w_d w) + acc) 0 weeks.

(** The loop that fills [weeks_dict]. *)
Definition weeks_dict_of (weeks : list ApiWeek) : gmap string WeekBucket :=
  foldl (λ weeks_dict w,
           let ts := Py.str (default 0 (w_w w)) in
           <[ts := mkWeek (Some (default 0 (w_a w))) (Some (default 0 (w_d w)))]>
             weeks_dict)
        ∅ weeks.

(** [cache["repos"][full_name] = {...}] *)
Definition store (cache : Cache) (full_name : string) (entry : RepoEntry)
  : Exc Cache :=
  repos ← repos_of cache;
  mret (mkCache (Some (<[full_name := entry]> repos)) (last_updated cache)).

(** The block under [# Update cache]. *)
Definition update_cache (full_name : string) (repo : Repo) (cache : Cache)
    (weeks : option (list ApiWeek)) (new_etag : option string) : M Cache :=
  match weeks with
  | Some weeks =>
      let weeks_dict := weeks_dict_of weeks in
      now ← datetime_now;
      lift (store cache full_name
              (mkEntry new_etag (default false (private repo))
                       (Some weeks_dict) now))
  | None => mret cache
  end.

(** The dictionary [cache] is mutated in place by the script; here the
    new cache is the result. *)
Definition _process_repo (full_name : string) (repo : Repo) (token : string)
    (cache : Cache) (weeks : option (list ApiWeek))
    (new_etag : option string) (status : Z) : M Cache :=
  repos ← lift (repos_of cache);
  let cached_repo := repos !! full_name in
  if status =? 304 then mret cache
  else
    match weeks with
    | Some ((_ :: _) as api_weeks) =>
        let total_a := sum_a api_weeks in
        let total_d := sum_d api_weeks in
        if (total_a =? 0) && (total_d =? 0) then
          weeks ← clone_and_count token full_name;
          update_cache full_name repo cache (Some weeks) new_etag
        else update_cache full_name repo cache weeks new_etag
    | Some [] =>
        now ← datetime_now;
        lift (store cache full_name
                (mkEntry new_etag (default false (private repo)) (Some ∅) now))
    | None =>
        if has_weeks cached_repo then mret cache
        else
          weeks ← clone_and_count token full_name;
          update_cache full_name repo cache (Some weeks) new_etag
    end.

(** [list_user_repos(token, token_label)]: the paginated listing is one
    oracle call. *)
Definition list_user_repos (token token_label : string) : M (list Repo) :=
  tr ← history;
  _ ← emit (Listed token);
  lift (listing env tr token).

(** An entry of [all_repos]: the repository, its token and the label of
    the token. *)
Definition Found : Type := Repo * string * string.

(** An entry of [pending_202]: name, repository, token and the ETag of the
    202 answer. *)
Definition Pending : Type := string * Repo * string * option string.

(** The order of [sorted] on the items of a dictionary with string keys. *)
Definition by_name {A : Type} (x y : string * A) : Prop :=
  String.leb x.1 y.1 = true.

#[global] Instance by_name_dec {A : Type} (x y : string * A)
  : Decision (by_name x y).
Proof. unfold by_name. apply _. Defined.

(** The loop that collects the repositories of all tokens: the first
    token that lists a repository keeps it. *)
Definition discover (active_tokens : list (string * string))
  : M (gmap string Found) :=
  for_eachM active_tokens
    (λ '(label, token) all_repos,
       listed ← try_except
                  (repos ← list_user_repos token label; mret (Some repos))
                  (λ e, match e with
                        | HTTPError _ => Some (mret None)   (* continue *)
                        | _ => None
                        end);
       match listed with
       | None => mret all_repos
       | Some repos =>
           mret (foldl (λ (all_repos : gmap string Found) repo,
                          match all_repos !! full_name repo with
                          | None => <[full_name repo := (repo, token, label)]> all_repos
                          | Some _ => all_repos
                          end)
                       all_repos repos)
       end)
    ∅.

(** The body of the loop of pass 1. *)
Definition pass1_step (item : string * Found) (st : Cache * list Pending)
  : M (Cache * list Pending) :=
  let '(full_name, (repo, token, token_label)) := item in
  let '(cache, pending_202) := st in
  repos ← lift (repos_of cache);
  let cached_repo := repos !! full_name in
  let etag := cached_repo ≫= etag in
  '(weeks, new_etag, status) ← get_contributor_stats token full_name etag;
  if status =? 202
  then mret (cache, pending_202 ++ [(full_name, repo, token, new_etag)])
  else
    cache ← _process_repo full_name repo token cache weeks new_etag status;
    mret (cache, pending_202).

(** The body of the loop of pass 2: no ETag is sent. *)
Definition pass2_step (item : Pending) (cache : Cache) : M Cache :=
  let '(full_name, repo, token, old_etag) := item in
  '(weeks, new_etag, status) ← get_contributor_stats token full_name None;
  _process_repo full_name repo token cache weeks new_etag status.

(** Writing [loc-stats.svg]: the card is a function of [stats]. *)
Definition write_svg (stats : gmap string Frame) : M () := λ w,
  (Done (), mkWorld (WroteSvg :: trace w) (cache_file w) (Some stats)).

(** [main] from pass 1 on, for a cache that is a dictionary. *)
Definition passes (cache : Cache) (all_repos : gmap string Found) : M () :=
  '(cache, pending_202) ←
    for_eachM (merge_sort by_name (map_to_list all_repos)) pass1_step
              (cache, []);
  cache ← (match pending_202 with
           | [] => mret cache
           | _ =>
               _ ← time_sleep PASS2_WAIT;
               for_eachM pending_202 pass2_step cache
           end);
  now ← datetime_now;
  stats ← lift (compute_timeframes now cache);
  _ ← write_svg stats;
  _ ← save_cache cache;
  mret ().

(** ["repos" in v] for a value that is no dictionary. *)
Definition mentions_repos (v : Json) : Exc bool :=
  match v with
  | JString s =>
      Done (Py.contains "repos" s)
  | JArray items =>
      Done (existsb (λ item, match item with
                             | JString s => bool_decide (s = "repos")
                             | _ => false
                             end) items)
  | _ => Raise TypeError
  end.

Definition main : M () :=
  let active_tokens := filter (λ lt, lt.2 ≠ "") (TOKENS env) in
  match active_tokens with
  | [] => raise (SystemExit 1)
  | _ =>
      cache ← load_cache;
      match cache with
      | Dict cache =>
          let cache := match repos cache with
                       | None => mkCache (Some ∅) (last_updated cache)
                       | Some _ => cache
                       end in
          all_repos ← discover active_tokens;
          passes cache all_repos
      | NotDict v =>
          (* [cache["repos"] = {}] on a list or a string *)
          known ← lift (mentions_repos v);
          if negb known then raise TypeError
          else
            all_repos ← discover active_tokens;
            if bool_decide (all_repos = ∅)
            then raise AttributeError   (* [cache.get] in compute_timeframes *)
            else raise TypeError        (* [cache["repos"]] in pass 1 *)
      end
  end.

End Script.

(** ** Observations on a run *)

(** How many times the history walk was started: each call of
    [clone_and_count] makes one temporary directory. *)
Fixpoint fallbacks (tr : list Event) : nat :=
  match tr with
  | [] => 0%nat
  | Mkdtemp :: tr' => S (fallbacks tr')
  | _ :: tr' => fallbacks tr'
  end.

(** The seconds slept, newest first. *)
Fixpoint sleeps (tr : list Event) : list Z :=
  match tr with
  | [] => []
  | Slept seconds :: tr' => seconds :: sleeps tr'
  | _ :: tr' => sleeps tr'
  end.

(** The entry [_process_repo] stores for [repo] from the weeks [weeks]. *)
Definition fresh_entry (repo : Repo) (new_etag : option string)
    (weeks : list ApiWeek) (now : Z) : RepoEntry :=
  mkEntry new_etag (default false (private repo)) (Some (weeks_dict_of weeks)) now.

(** The cache file when the process dies after [n] steps of [save_cache]
    on the disk. *)
Definition crash_at (n : nat) (cache : Cache) (f : option FileContent)
  : option FileContent :=
  foldl file_step f (take n (save_steps cache)).

(** The zero frame of a window. *)
Definition zero_frame : Frame := mkFrame 0 0 (Some 0).

(** What [_process_repo] does with the weeks of the history walk. *)
Definition fallback_result (env : Env) (full_name : string) (repo : Repo) (token : string)
    (cache : Cache) (rs : gmap string RepoEntry) (new_etag : option string)
    (w : World) : Exc Cache * World :=
  let '(fb, w') := clone_and_count env token full_name w in
  (match fb with
   | Done weeks =>
       Done (mkCache
               (Some (<[full_name :=
                        fresh_entry repo new_etag weeks (clock env (trace w'))]> rs))
               (last_updated cache))
   | Raise e => Raise e
   end, w').

(** ** Sample runs *)

Definition line_feed : string := String (Ascii.ascii_of_nat 10) EmptyString.
Definition tab_text : string := String tab EmptyString.

(** A log of one commit that changes one text file. *)
Definition sample_log : string :=
  "1700000000" +:+ line_feed +:+ "5" +:+ tab_text +:+ "3" +:+ tab_text +:+ "a.py".

Definition sample_answer (status : Z) (remaining : string)
    (weeks : list ApiWeek) : Response :=
  mkResponse status (Some "W/e2") (Some remaining) (Some "1700003600")
    [mkContributor (AuthorObject (Some "CTF05")) (Some weeks)].

(** One token; two repositories listed; the clock stands at 1700000000
    seconds; [answer] is what the statistics endpoint says and [log] what
    [git log] prints. *)
Definition sample_env (answer : Request → Response) (log : RunOutcome) : Env :=
  mkEnv "ctf05" [("personal", "t0"); ("LOME-AI", "")]
        (λ _, 1700000000 * second_us)
        (λ _ rq, Answered (answer rq))
        (λ _ _, Done [mkRepo "octo/b" (Some false); mkRepo "octo/a" None])
        (λ _ cmd, match cmd with
                  | GitCloneBare _ _ => Completed ""
                  | GitLogNumstat _ => log
                  end).

Definition octo_a : Repo := mkRepo "octo/a" None.

Definition zero_week : ApiWeek := mkApiWeek (Some 1699833600) (Some 0) (Some 0).

(** A cache with an entry for octo/a that holds one week. *)
Definition stale_entry : RepoEntry :=
  mkEntry (Some "W/e1") false
          (Some {[ "1699228800" := mkWeek (Some 10) (Some 4) ]}) 1699300000000000.

Definition stale_cache : Cache :=
  mkCache (Some {[ "octo/a" := stale_entry ]}) (Some 1699300000000000).

Definition blank_world : World := mkWorld [] None None.

Definition stale_world : World :=
  mkWorld [] (Some (JsonText (Dict stale_cache))) None.

Definition busy_week : ApiWeek := mkApiWeek (Some 1699833600) (Some 100) (Some 20).

(** The statistics endpoint fails for octo/a and is ready for the rest. *)
Definition failing_answer (rq : Request) : Response :=
  if bool_decide (url rq = API_BASE +:+ "/repos/octo/a/stats/contributors")
  then sample_answer 500 "4000" []
  else sample_answer 200 "4000" [busy_week].

Definition env_hard_failure : Env := sample_env failing_answer TimeoutExpired.

(** Every answer has the given status and says that 5 requests remain
    until the reset, an hour from now. *)
Definition env_low_quota (status : Z) : Env :=
  sample_env (λ _, sample_answer status "5" [busy_week]) TimeoutExpired.

(** A commit that changes one binary file. *)
Definition binary_log : string :=
  "1700000000" +:+ line_feed +:+ "-" +:+ tab_text +:+ "-" +:+ tab_text +:+ "img.png".

(** A commit whose only entry has no additions count. *)
Definition half_numeric_log : string :=
  "1700000000" +:+ line_feed +:+ "-" +:+ tab_text +:+ "7" +:+ tab_text +:+ "f".

(** Two commits, a week apart: the first changes a text file, the second
    a binary file and a text file. *)
Definition two_commit_log : string :=
  "1700000000" +:+ line_feed +:+
  "5" +:+ tab_text +:+ "3" +:+ tab_text +:+ "a.py" +:+ line_feed +:+
  line_feed +:+
  "1700700000" +:+ line_feed +:+
  "-" +:+ tab_text +:+ "-" +:+ tab_text +:+ "img.png" +:+ line_feed +:+
  "7" +:+ tab_text +:+ "2" +:+ tab_text +:+ "b.py".

(** A commit without entries. *)
Definition bare_log : string := "1700000000".

(** The cache file holds a JSON array. *)
Definition array_world : World :=
  mkWorld [] (Some (JsonText (NotDict (JArray [])))) None.

(** The cache file holds bytes that are no text. *)
Definition bad_bytes_world : World := mkWorld [] (Some BadBytes) None.

(** ** Decimal numerals

    The value of the digits [d] read after the number [acc]: what
    [Py.digits_from] computes on the text of [d]. *)
Fixpoint uint_val (acc : Z) (d : Decimal.uint) : Z :=
  match d with
  | Decimal.Nil => acc
  | Decimal.D0 d => uint_val (10 * acc + 0) d
  | Decimal.D1 d => uint_val (10 * acc + 1) d
  | Decimal.D2 d => uint_val (10 * acc + 2) d
  | Decimal.D3 d => uint_val (10 * acc + 3) d
  | Decimal.D4 d => uint_val (10 * acc + 4) d
  | Decimal.D5 d => uint_val (10 * acc + 5) d
  | Decimal.D6 d => uint_val (10 * acc + 6) d
  | Decimal.D7 d => uint_val (10 * acc + 7) d
  | Decimal.D8 d => uint_val (10 * acc + 8) d
  | Decimal.D9 d => uint_val (10 * acc + 9) d
  end.

(** ** Shapes used in the further properties *)

(** The cache once the entry made from [weeks] at time [now] is stored
    under [full_name]. *)
Definition stored (cache : Cache) (rs : gmap string RepoEntry)
    (full_name : string) (repo : Repo) (new_etag : option string)
    (weeks : list ApiWeek) (now : Z) : Cache :=
  mkCache (Some (<[full_name := fresh_entry repo new_etag weeks now]> rs))
          (last_updated cache).

(** The bucket [weeks_dict_of] stores for a week. *)
Definition bucket_of (wk : ApiWeek) : WeekBucket :=
  mkWeek (Some (default 0 (w_a wk))) (Some (default 0 (w_d wk))).

(** The week start [weeks_dict_of] files a week under. *)
Definition start_of_week (wk : ApiWeek) : Z := default 0 (w_w wk).

(** ** More sample data *)

Definition octo_b : Repo := mkRepo "octo/b" (Some true).

(** The environment whose statistics endpoint always answers [status]
    with one busy week, and whose git calls time out. *)
Definition env_status (status : Z) : Env :=
  sample_env (λ _, sample_answer status "4000" [busy_week]) TimeoutExpired.

(** A commit dated one second after the end of year 9999. *)
Definition late_log : string :=
  "253402300800" +:+ line_feed +:+ "1" +:+ tab_text +:+ "1" +:+ tab_text +:+ "f".

(** 3000-01-08 00:00:00.999999 UTC, in microseconds: seven days earlier
    is the last microsecond before second 32503680001, and the nearest
    double to that instant is the second itself. *)
Definition far_now : Z := 32504284800999999.

(** A cache with a week that starts at second 32503680000 and one that
    starts a second later. *)
Definition far_cache : Cache :=
  mkCache (Some {[ "octo/a" :=
            mkEntry None false
              (Some {[ "32503680000" := mkWeek (Some 1) (Some 10);
                       "32503680001" := mkWeek (Some 100) (Some 1000) ]}) 0 ]})
          None.

(** Monday, 00:00 UTC: a whole number of weeks from the first Monday after
    the epoch. *)
Definition on_monday (ts : Z) : Prop := (ts - 4 * 86400) `mod` (7 * 86400) = 0.

(** A contributor whose login is not the user's. *)
Definition other_user (env : Env) (contrib : Contributor) : Prop :=
  ∃ login, login_of contrib = Done login ∧
           Py.lower login ≠ Py.lower (GITHUB_USER env).

(** The inner loop of the discovery: the repositories of one listing are
    added under their names unless the name is taken. *)
Definition register (token label : string) (all_repos : gmap string Found)
    (repos : list Repo) : gmap string Found :=
  foldl (λ (all_repos : gmap string Found) repo,
           match all_repos !! full_name repo with
           | None => <[full_name repo := (repo, token, label)]> all_repos
           | Some _ => all_repos
           end)
        all_repos repos.


(** The discovery loop of [main] from a given dictionary: [discover] is
    this loop from the empty one. *)
Definition discover_from (env : Env) (active_tokens : list (string * string))
    (all_repos : gmap string Found) : M (gmap string Found) :=
  for_eachM active_tokens
    (λ '(label, token) all_repos,
       listed ← try_except
                  (repos ← list_user_repos env token label; mret (Some repos))
                  (λ e, match e with
                        | HTTPError _ => Some (mret None)
                        | _ => None
                        end);
       match listed with
       | None => mret all_repos
       | Some repos =>
           mret (foldl (λ (all_repos : gmap string Found) repo,
                          match all_repos !! full_name repo with
                          | None => <[full_name repo := (repo, token, label)]> all_repos
                          | Some _ => all_repos
                          end)
                       all_repos repos)
       end)
    all_repos.

(** An environment in which the listing of token t0 fails with [failure]
    and every other listing returns octo/a. *)
Definition env_listing_fails (failure : Exn) : Env :=
  mkEnv "ctf05" [("personal", "t0"); ("LOME-AI", "t1")]
        (λ _, 1700000000 * second_us)
        (λ _ _, Unreachable)
        (λ _ token, if bool_decide (token = "t0") then Raise failure
                    else Done [octo_a])
        (λ _ _, TimeoutExpired).

(** The repositories of the sample listing. *)
Definition sample_repos : list Repo :=
  [mkRepo "octo/b" (Some false); mkRepo "octo/a" None].

(** * Properties *)

(** ** Floats: rounding keeps the order *)

Section FloatFacts.

Import Float.

Local Open Scope Q_scope.

Lemma round_half_even_floor x :
  (Qfloor x <= round_half_even x <= Qfloor x + 1)%Z.
Proof.
  unfold round_half_even. cbv zeta.
  destruct (Qcompare _ _); [destruct (Z.even _)|..]; lia.
Qed.

Lemma round_half_even_mono x y :
  x <= y → (round_half_even x <= round_half_even y)%Z.
Proof.
  intros Hxy. pose proof (Qfloor_resp_le _ _ Hxy) as Hf.
  destruct (Z.eq_dec (Qfloor x) (Qfloor y)) as [Heq|Hne].
  - unfold round_half_even. cbv zeta. rewrite Heq.
    destruct (Qcompare_spec (x - inject_Z (Qfloor y)) (1 # 2)) as [Hx|Hx|Hx];
      destruct (Qcompare_spec (y - inject_Z (Qfloor y)) (1 # 2)) as [Hy|Hy|Hy];
      destruct (Z.even (Qfloor y)); try lia; exfalso; lra.
  - pose proof (round_half_even_floor x). pose proof (round_half_even_floor y).
    lia.
Qed.

Lemma round_half_even_Z z : round_half_even (inject_Z z) = z.
Proof.
  unfold round_half_even. cbv zeta. rewrite Qfloor_Z.
  destruct (Qcompare_spec (inject_Z z - inject_Z z) (1 # 2)); [exfalso; lra|done|exfalso; lra].
Qed.

Lemma Qpower2_pos e : 0 < 2 ^ e.
Proof. apply Qpower_0_lt. lra. Qed.

Lemma Qpower2_succ e : 2 ^ (e + 1) == 2 * 2 ^ e.
Proof. rewrite Qpower_plus by lra. rewrite Qpower_1_r. lra. Qed.

Lemma ilog2_spec x : 0 < x → 2 ^ ilog2 x <= x ∧ x < 2 ^ (ilog2 x + 1).
Proof.
  intros Hx. destruct x as [n d]. 
  assert (Hn : (0 < n)%Z) by (unfold Qlt in Hx; cbn in Hx; lia).
  unfold ilog2. cbv zeta. cbn [Qnum Qden].
  set (ln := Z.log2 n). set (ld := Z.log2 (Z.pos d)).
  destruct (Z.log2_spec n Hn) as [Hn1 Hn2]. fold ln in Hn1, Hn2.
  destruct (Z.log2_spec (Z.pos d) eq_refl) as [Hd1 Hd2]. fold ld in Hd1, Hd2.
  assert (Hln : (0 <= ln)%Z) by apply Z.log2_nonneg.
  assert (Hld : (0 <= ld)%Z) by apply Z.log2_nonneg.
  pose proof (Qpower2_pos ln) as HA. pose proof (Qpower2_pos ld) as HB.
  assert (HnA : 2 ^ ln <= inject_Z n).
  { change 2 with (inject_Z 2). rewrite <- Zpower_Qpower by done.
    by rewrite <- Zle_Qle. }
  assert (HnA' : inject_Z n < 2 * 2 ^ ln).
  { rewrite <- Qpower2_succ. change 2 with (inject_Z 2).
    rewrite <- Zpower_Qpower by lia. rewrite <- Zlt_Qlt. by replace (ln + 1)%Z with (Z.succ ln) by lia. }
  assert (HdB : 2 ^ ld <= inject_Z (Z.pos d)).
  { change 2 with (inject_Z 2). rewrite <- Zpower_Qpower by done.
    by rewrite <- Zle_Qle. }
  assert (HdB' : inject_Z (Z.pos d) < 2 * 2 ^ ld).
  { rewrite <- Qpower2_succ. change 2 with (inject_Z 2).
    rewrite <- Zpower_Qpower by lia. rewrite <- Zlt_Qlt. by replace (ld + 1)%Z with (Z.succ ld) by lia. }
  assert (Hx' : n # d == inject_Z n / inject_Z (Z.pos d)) by apply Qmake_Qdiv.
  assert (Hk : 2 ^ (ln - ld) == 2 ^ ln / 2 ^ ld) by (apply Qpower_minus; lra).
  set (A := 2 ^ ln) in *. set (B := 2 ^ ld) in *.
  set (N := inject_Z n) in *. set (D := inject_Z (Z.pos d)) in *.
  assert (Hlo : 2 ^ (ln - ld - 1) < n # d).
  { rewrite Hx'. unfold Z.sub at 1. rewrite Qpower_plus, Hk by lra.
    change (2 ^ (-1)) with (1 # 2). 
    apply Qlt_shift_div_l; [lra|].
    assert (A / B * (1 # 2) * D == (A * (1#2)) * (D / B)) as -> by (field; lra).
    assert (D / B < 2) by (apply Qlt_shift_div_r; lra).
    nra. }
  assert (Hhi : n # d < 2 ^ (ln - ld + 1)).
  { rewrite Hx', Qpower2_succ, Hk.
    apply Qlt_shift_div_r; [lra|].
    assert (2 * (A / B) * D == (2 * A) * (D / B)) as -> by (field; lra).
    assert (1 <= D / B) by (apply Qle_shift_div_l; lra).
    nra. }
  destruct (Qle_bool (2 ^ (ln - ld)) (n # d)) eqn:Hle.
  - apply Qle_bool_iff in Hle. done.
  - assert (Hlt : n # d < 2 ^ (ln - ld)).
    { apply Qnot_le_lt. intros H%Qle_bool_iff. congruence. }
    split; [by apply Qlt_le_weak|].
    by replace (ln - ld - 1 + 1)%Z with (ln - ld)%Z by lia.
Qed.

Lemma ilog2_mono x y : 0 < x → x <= y → (ilog2 x <= ilog2 y)%Z.
Proof.
  intros Hx Hxy. destruct (ilog2_spec x Hx) as [Hx1 _].
  destruct (ilog2_spec y) as [_ Hy2]; [lra|].
  assert (H : 2 ^ ilog2 x < 2 ^ (ilog2 y + 1)) by lra.
  apply Qpower_lt_compat_l_inv in H; [lia|lra].
Qed.

Lemma nearest_double_pos x :
  0 < x →
  nearest_double x =
    inject_Z (round_half_even (x / 2 ^ (ilog2 x - 52))) * 2 ^ (ilog2 x - 52).
Proof.
  intros Hx. destruct x as [[|p|p] d]; [done| |done].
  unfold nearest_double. cbn [Qeq_bool Qnum Qden Z.mul Z.eqb Qabs Z.abs Z.sgn].
  cbv zeta. by rewrite Z.mul_1_l.
Qed.

Lemma scaled_lt x e k : 0 < x → x < 2 ^ (e + k) → x / 2 ^ e < 2 ^ k.
Proof.
  intros Hx Hlt. rewrite Qpower_plus in Hlt by lra.
  apply Qlt_shift_div_r; [apply Qpower2_pos|]. lra.
Qed.

Lemma scaled_le x e k : 2 ^ (e + k) <= x → 2 ^ k <= x / 2 ^ e.
Proof.
  intros Hle. rewrite Qpower_plus in Hle by lra.
  apply Qle_shift_div_l; [apply Qpower2_pos|]. lra.
Qed.

(** The mantissa of the double nearest to a positive number lies between
    2^52 and 2^53. *)
Lemma mantissa_range x :
  0 < x →
  (2 ^ 52 <= round_half_even (x / 2 ^ (ilog2 x - 52)) <= 2 ^ 53)%Z.
Proof.
  intros Hx. destruct (ilog2_spec x Hx) as [Hlo Hhi]. split.
  - rewrite <- (round_half_even_Z (2 ^ 52)). apply round_half_even_mono.
    rewrite Zpower_Qpower by done. apply scaled_le.
    by replace (ilog2 x - 52 + 52)%Z with (ilog2 x) by lia.
  - rewrite <- (round_half_even_Z (2 ^ 53)). apply round_half_even_mono.
    rewrite Zpower_Qpower by done. apply Qlt_le_weak, scaled_lt; [done|].
    by replace (ilog2 x - 52 + 53)%Z with (ilog2 x + 1)%Z by lia.
Qed.

Lemma nearest_double_mono x y :
  0 < x → x <= y → nearest_double x <= nearest_double y.
Proof.
  intros Hx Hxy. assert (Hy : 0 < y) by lra.
  rewrite (nearest_double_pos x Hx), (nearest_double_pos y Hy).
  pose proof (ilog2_mono x y Hx Hxy) as He.
  pose proof (mantissa_range x Hx) as [_ Hmx].
  pose proof (mantissa_range y Hy) as [Hmy _].
  set (ex := (ilog2 x - 52)%Z) in *. set (ey := (ilog2 y - 52)%Z) in *.
  pose proof (Qpower2_pos ex) as Hpx. pose proof (Qpower2_pos ey) as Hpy.
  destruct (Z.eq_dec (ilog2 x) (ilog2 y)) as [Heq|Hne].
  - assert (ex = ey) as -> by (unfold ex, ey; lia).
    apply Qmult_le_compat_r; [|lra]. rewrite <- Zle_Qle.
    apply round_half_even_mono. apply Qmult_le_compat_r; [done|].
    apply Qlt_le_weak, Qinv_lt_0_compat, Hpy.
  - assert (Hstep : 2 * 2 ^ ex <= 2 ^ ey).
    { rewrite <- Qpower2_succ. apply Qpower_le_compat_l; [unfold ex, ey; lia|lra]. }
    rewrite Zle_Qle in Hmx, Hmy.
    change (inject_Z (2 ^ 53)) with (2 * inject_Z (2 ^ 52)) in Hmx.
    set (mx := inject_Z (round_half_even _)) in *.
    set (my := inject_Z (round_half_even _)) in *.
    set (c := inject_Z (2 ^ 52)) in *.
    assert (0 < c) by done.
    nra.
Qed.

Lemma nearest_double_neg q d :
  nearest_double (Z.neg q # d) =
    inject_Z (- round_half_even ((Z.pos q # d) / 2 ^ (ilog2 (Z.pos q # d) - 52)))
    * 2 ^ (ilog2 (Z.pos q # d) - 52).
Proof.
  unfold nearest_double. cbn [Qeq_bool Qnum Qden Z.mul Z.eqb Qabs Z.abs Z.sgn].
  cbv zeta. do 2 f_equal; lia.
Qed.

Lemma int_of_float_scaled k q :
  int_of_float (inject_Z k * q) = Z.quot (k * Qnum q) (Z.pos (Qden q)).
Proof. done. Qed.

Lemma int_of_float_nonneg v : 0 <= v → int_of_float v = Qfloor v.
Proof.
  destruct v as [n d]. unfold Qle. cbn. intros Hn.
  apply Z.quot_div_nonneg; lia.
Qed.

Lemma nearest_double_nonneg x : 0 < x → 0 <= nearest_double x.
Proof.
  intros Hx. rewrite (nearest_double_pos x Hx).
  pose proof (mantissa_range x Hx) as [Hm _]. rewrite Zle_Qle in Hm.
  pose proof (Qpower2_pos (ilog2 x - 52)).
  assert (0 < inject_Z (2 ^ 52)) by done. nra.
Qed.

Lemma int_true_div_opp us d :
  int_of_float (true_div (- us) d) = (- int_of_float (true_div us d))%Z.
Proof.
  unfold true_div. destruct us as [|q|q]; [done|..].
  - change (- Z.pos q)%Z with (Z.neg q). rewrite nearest_double_neg, nearest_double_pos by done.
    rewrite !int_of_float_scaled, Z.mul_opp_l. apply Z.quot_opp_l. done.
  - change (- Z.neg q)%Z with (Z.pos q).
    rewrite nearest_double_neg, nearest_double_pos by done.
    rewrite !int_of_float_scaled, Z.mul_opp_l, Z.quot_opp_l by done. lia.
Qed.

Lemma int_true_div_nonneg us d :
  (0 <= us)%Z → (0 <= int_of_float (true_div us d))%Z.
Proof.
  intros Hus. unfold true_div. destruct us as [|q|q]; [done| |lia].
  pose proof (nearest_double_nonneg (Z.pos q # Z.to_pos d) eq_refl) as Hv.
  rewrite int_of_float_nonneg by done.
  by apply Qfloor_resp_le in Hv.
Qed.

Lemma int_true_div_mono a b d :
  (a <= b)%Z → (int_of_float (true_div a d) <= int_of_float (true_div b d))%Z.
Proof.
  assert (Hpos : ∀ a b, (0 < a)%Z → (a <= b)%Z →
    (int_of_float (true_div a d) <= int_of_float (true_div b d))%Z).
  { clear a b. intros a b Ha Hab. unfold true_div.
    assert (Hx : 0 < a # Z.to_pos d) by (unfold Qlt; cbn; lia).
    assert (Hxy : a # Z.to_pos d <= b # Z.to_pos d) by (unfold Qle; cbn; nia).
    rewrite !int_of_float_nonneg by (apply nearest_double_nonneg; lra).
    by apply Qfloor_resp_le, nearest_double_mono. }
  intros Hab. destruct (Z.lt_trichotomy 0 a) as [Ha|[<-|Ha]].
  - by apply Hpos.
  - by apply int_true_div_nonneg.
  - destruct (Z.le_gt_cases 0 b) as [Hb|Hb].
    + pose proof (int_true_div_nonneg b d Hb).
      pose proof (int_true_div_nonneg (- a) d ltac:(lia)) as Hna.
      rewrite int_true_div_opp in Hna. lia.
    + pose proof (Hpos (- b)%Z (- a)%Z ltac:(lia) ltac:(lia)) as Hneg.
      rewrite !int_true_div_opp in Hneg. lia.
Qed.

Lemma round_half_even_near x :
  inject_Z (round_half_even x) - (1 # 2) <= x ∧
  x <= inject_Z (round_half_even x) + (1 # 2).
Proof.
  unfold round_half_even. cbv zeta.
  pose proof (Qfloor_le x) as Hlo. pose proof (Qlt_floor x) as Hhi.
  rewrite inject_Z_plus in Hhi. change (inject_Z 1) with 1 in Hhi.
  destruct (Qcompare_spec (x - inject_Z (Qfloor x)) (1 # 2));
    [destruct (Z.even _)|..];
    rewrite ?inject_Z_plus; change (inject_Z 1) with 1; lra.
Qed.

Lemma Qfloor_unique v s :
  inject_Z s <= v → v < inject_Z (s + 1) → Qfloor v = s.
Proof.
  intros Hlo Hhi. pose proof (Qfloor_le v) as Hlo'.
  pose proof (Qlt_floor v) as Hhi'.
  assert (H1 : inject_Z s < inject_Z (Qfloor v + 1)) by lra.
  assert (H2 : inject_Z (Qfloor v) < inject_Z (s + 1)) by lra.
  rewrite <- Zlt_Qlt in H1, H2. lia.
Qed.

(** Division by at most 2^20 of a number whose quotient is below 2^33:
    the nearest double has the integer part of the exact quotient. *)
Lemma int_true_div_exact us d :
  (0 < d <= 2 ^ 20)%Z → (Z.abs us < 2 ^ 33 * d)%Z →
  int_of_float (true_div us d) = Z.quot us d.
Proof.
  intros Hd.
  assert (Hpos : ∀ a, (0 < a < 2 ^ 33 * d)%Z →
    int_of_float (true_div a d) = Z.quot a d).
  { intros a Ha. unfold true_div.
    assert (Hdp : Z.pos (Z.to_pos d) = d) by (apply Z2Pos.id; lia).
    set (x := a # Z.to_pos d).
    assert (Hx : 0 < x) by (unfold Qlt; cbn; lia).
    rewrite int_of_float_nonneg by (by apply nearest_double_nonneg).
    rewrite Z.quot_div_nonneg by lia.
    rewrite (nearest_double_pos x Hx).
    set (e := (ilog2 x - 52)%Z).
    assert (He : (e <= -20)%Z).
    { destruct (ilog2_spec x Hx) as [Hlo _].
      assert (Hlt : x < 2 ^ 33).
      { change (2 ^ 33) with (inject_Z (2 ^ 33)). unfold x, Qlt. cbn [Qnum Qden inject_Z].
        rewrite Hdp. lia. }
      assert (H : 2 ^ ilog2 x < 2 ^ 33) by lra.
      apply Qpower_lt_compat_l_inv in H; [unfold e; lia|lra]. }
    set (p := 2 ^ (- e)).
    assert (Hpe : p * 2 ^ e == 1).
    { unfold p. rewrite <- Qpower_plus by lra.
      by replace (- e + e)%Z with 0%Z by lia. }
    pose proof (Qpower2_pos e) as Hq.
    assert (Hp : inject_Z d <= p).
    { assert (H20 : 2 ^ 20 <= p)
        by (apply Qpower_le_compat_l; [lia|lra]).
      assert (inject_Z d <= 2 ^ 20); [|lra].
      change (2 ^ 20) with (inject_Z (2 ^ 20)). rewrite <- Zle_Qle. lia. }
    assert (Hscale : x / 2 ^ e == x * p).
    { unfold p. rewrite Qpower_opp. reflexivity. }
    assert (HxD : x * inject_Z d == inject_Z a).
    { unfold x. rewrite Qmake_Qdiv, Hdp. field.
      intros H0. assert (0 < inject_Z d); [|lra].
      change 0 with (inject_Z 0). rewrite <- Zlt_Qlt. lia. }
    assert (HD : 0 < inject_Z d)
      by (change 0 with (inject_Z 0); rewrite <- Zlt_Qlt; lia).
    set (s := (a / d)%Z).
    assert (Hs1 : inject_Z s * inject_Z d <= inject_Z a).
    { rewrite <- inject_Z_mult, <- Zle_Qle. unfold s.
      pose proof (Z.mul_div_le a d). lia. }
    assert (Hs2 : inject_Z a <= inject_Z s * inject_Z d + inject_Z d - 1).
    { change 1 with (inject_Z 1).
      unfold Qminus. rewrite <- inject_Z_mult, <- inject_Z_plus, <- inject_Z_opp,
        <- inject_Z_plus, <- Zle_Qle. unfold s.
      pose proof (Z.mod_pos_bound a d). pose proof (Z.div_mod a d). lia. }
    assert (HSx : inject_Z s <= x).
    { apply Qmult_le_r with (z := inject_Z d); [done|]. lra. }
    assert (Hpow : inject_Z (2 ^ (- e)) == p)
      by (apply Zpower_Qpower; lia).
    set (y := x / 2 ^ e) in *.
    destruct (round_half_even_near y) as [Hnear _].
    assert (Hlow : (s * 2 ^ (- e) <= round_half_even y)%Z).
    { rewrite <- (round_half_even_Z (s * 2 ^ (- e))).
      apply round_half_even_mono. rewrite inject_Z_mult.
      assert (0 < p) by apply Qpower2_pos.
      set (P := inject_Z (2 ^ (- e))) in *. nra. }
    rewrite Zle_Qle, inject_Z_mult in Hlow.
    set (P := inject_Z (2 ^ (- e))) in *.
    set (m := inject_Z (round_half_even y)) in *.
    set (S := inject_Z s) in *. set (D := inject_Z d) in *.
    set (A := inject_Z a) in *. set (q := 2 ^ e) in *.
    assert (Hpos : 0 < p) by apply Qpower2_pos.
    assert (Hxle : x * D <= S * D + D - 1) by lra.
    set (r := p / D).
    assert (Hr : p == r * D) by (unfold r; field; lra).
    assert (Hr1 : 1 <= r) by (apply Qle_shift_div_l; lra).
    assert (Hone : P * q == 1) by (rewrite Hpow; exact Hpe).
    apply Qfloor_unique.
    - fold S.
      assert (H1 : S * P * q <= m * q) by (apply Qmult_le_compat_r; lra).
      assert (H2 : S * P * q == S) by (rewrite <- Qmult_assoc, Hone; ring).
      lra.
    - rewrite inject_Z_plus. fold S. change (inject_Z 1) with 1.
      assert (Hxr : x * D * r <= (S * D + D - 1) * r)
        by (apply Qmult_le_compat_r; lra).
      assert (Hxp : x * p <= (S + 1) * p - r).
      { rewrite Hr. lra. }
      assert (Hm : m < (S + 1) * p) by lra.
      assert (H1 : m * q < (S + 1) * p * q) by (apply Qmult_lt_compat_r; lra).
      assert (H2 : (S + 1) * p * q == S + 1)
        by (rewrite <- Qmult_assoc, Hpe; ring).
      lra. }
  intros Hus. destruct (Z.lt_trichotomy 0 us) as [Hpos'|[<-|Hneg]].
  - apply Hpos. lia.
  - done.
  - pose proof (Hpos (- us)%Z ltac:(lia)) as Hquot.
    pose proof (int_true_div_opp (- us) d) as Hopp.
    rewrite Z.opp_involutive in Hopp.
    rewrite Hopp, Hquot, Z.quot_opp_l by lia. lia.
Qed.

End FloatFacts.

(** ** The aggregator *)

Section Aggregator.

Implicit Types (result res : gmap string Frame) (week : WeekBucket).

Lemma int_of_Some s n : Py.int s = Some n → int_of s = Done n.
Proof. unfold int_of. by intros ->. Qed.

Lemma sum_from_cons start_ts f key week l :
  sum_from start_ts f ((key, week) :: l) =
    if starts_from start_ts key then f week + sum_from start_ts f l
    else sum_from start_ts f l.
Proof. done. Qed.

Lemma starts_from_Some start_ts key week_ts :
  Py.int key = Some week_ts → starts_from start_ts key = (week_ts >=? start_ts).
Proof. unfold starts_from. by intros ->. Qed.

Lemma count_week_lookup week_ts week bounds res label :
  count_week week_ts week bounds res !! label =
    foldl (λ o '(l, start_ts),
             if (week_ts >=? start_ts) && bool_decide (l = label)
             then add_week week <$> o else o)
          (res !! label) bounds.
Proof.
  unfold count_week. revert res.
  induction bounds as [|[l b] bounds IH]; intros res; [done|].
  cbn [foldl]. rewrite IH. f_equal.
  destruct (week_ts >=? b); [|done].
  rewrite lookup_alter. cbn. case_bool_decide; case_decide; by simplify_eq.
Qed.

Lemma boundaries_lookup now week_ts week res label start_ts :
  (label, start_ts) ∈ boundaries now →
  count_week week_ts week (boundaries now) res !! label =
    (if week_ts >=? start_ts then add_week week else id) <$> res !! label.
Proof.
  intros Hin. rewrite count_week_lookup.
  unfold boundaries, TIME_FRAMES in *. cbn [fmap list_fmap] in *.
  repeat (apply elem_of_cons in Hin as [[= -> ->]|Hin]);
    [..|by apply elem_of_nil in Hin];
    cbn [foldl]; rewrite ?bool_decide_eq_true_2, ?bool_decide_eq_false_2,
      ?andb_true_r, ?andb_false_r by done;
    destruct (res !! _); cbn; by destruct (week_ts >=? _).
Qed.

Lemma scan_weeks_frames now weeks res :
  Forall (λ kw, is_Some (Py.int kw.1)) weeks →
  ∃ res', scan_weeks (boundaries now) weeks res = Done res' ∧
    ∀ label start_ts, (label, start_ts) ∈ boundaries now →
      res' !! label =
        shifted (sum_from start_ts adds weeks) (sum_from start_ts dels weeks)
          <$> res !! label.
Proof.
  unfold scan_weeks. intros Hkeys. revert res.
  induction Hkeys as [|[key week] weeks [week_ts Hkey] _ IH]; intros res.
  - exists res. split; [done|]. intros label b _. cbn.
    destruct (res !! label) as [[]|]; cbn; [|done].
    unfold shifted; cbn. do 2 f_equal; lia.
  - cbn [for_each]. cbn in Hkey. rewrite (int_of_Some _ _ Hkey).
    destruct (IH (count_week week_ts week (boundaries now) res))
      as (res' & Heq & Hres').
    exists res'. split; [exact Heq|]. intros label b Hin.
    rewrite (Hres' _ _ Hin), (boundaries_lookup _ _ _ _ _ _ Hin).
    rewrite !sum_from_cons, (starts_from_Some _ _ _ Hkey).
    destruct (res !! label) as [[]|]; cbn; [|done].
    destruct (week_ts >=? b); unfold shifted, add_week, adds, dels; cbn;
      do 2 f_equal; lia.
Qed.

Lemma sum_from_app start_ts f l1 l2 :
  sum_from start_ts f (l1 ++ l2) = sum_from start_ts f l1 + sum_from start_ts f l2.
Proof.
  induction l1 as [|kw l1 IH]; cbn; [done|].
  fold (sum_from start_ts f (l1 ++ l2)). fold (sum_from start_ts f l1).
  rewrite IH. destruct (starts_from _ _); lia.
Qed.

Lemma with_total_lookup res label days :
  (label, days) ∈ TIME_FRAMES →
  foldl (λ res '(label, _), alter with_total label res) res TIME_FRAMES !! label
    = with_total <$> res !! label.
Proof.
  intros Hin. unfold TIME_FRAMES in *.
  repeat (apply elem_of_cons in Hin as [[= -> ->]|Hin]);
    [..|by apply elem_of_nil in Hin]; cbn [foldl];
    rewrite !lookup_alter; by repeat (case_decide; simplify_eq).
Qed.

Lemma repos_loop_frames now (rs : list (string * RepoEntry)) res :
  let weeks_of := λ '(_, repo_data), map_to_list (default ∅ (weeks repo_data)) in
  Forall (λ kw, is_Some (Py.int kw.1)) (rs ≫= weeks_of) →
  ∃ res',
    for_each rs
      (λ '(repo_name, repo_data) res,
         let weeks := default ∅ (weeks repo_data) in
         scan_weeks (boundaries now) (map_to_list weeks) res) res = Done res' ∧
    ∀ label start_ts, (label, start_ts) ∈ boundaries now →
      res' !! label =
        shifted (sum_from start_ts adds (rs ≫= weeks_of))
                (sum_from start_ts dels (rs ≫= weeks_of)) <$> res !! label.
Proof.
  intros weeks_of. revert res.
  induction rs as [|[name rd] rs IH]; intros res Hkeys.
  - exists res. split; [done|]. intros label b _. cbn.
    destruct (res !! label) as [[]|]; cbn; [|done].
    unfold shifted; cbn. do 2 f_equal; lia.
  - rewrite bind_cons in Hkeys. apply Forall_app in Hkeys as [Hhere Hrest].
    destruct (scan_weeks_frames now _ res Hhere) as (res1 & Hrun1 & Hres1).
    destruct (IH res1 Hrest) as (res' & Hrun & Hres').
    exists res'. split.
    + cbn [for_each]. cbn beta iota zeta. unfold weeks_of in Hrun1.
      by rewrite Hrun1.
    + intros label b Hin. rewrite (Hres' _ _ Hin), (Hres1 _ _ Hin).
      rewrite bind_cons, !sum_from_app.
      destruct (res !! label) as [[]|]; cbn; [|done].
      unfold shifted; cbn. do 2 f_equal; lia.
Qed.

Lemma boundaries_elem now label days :
  (label, days) ∈ TIME_FRAMES → (label, start_of now days) ∈ boundaries now.
Proof.
  intros Hin. unfold boundaries. apply list_elem_of_fmap.
  by exists (label, days).
Qed.

Lemma initial_result_lookup label days :
  (label, days) ∈ TIME_FRAMES →
  (list_to_map ((λ '(label, _), (label, mkFrame 0 0 None)) <$> TIME_FRAMES)
     : gmap string Frame) !! label = Some (mkFrame 0 0 None).
Proof.
  intros Hin. unfold TIME_FRAMES in *.
  by repeat (apply elem_of_cons in Hin as [[= -> ->]|Hin]);
    [..|apply elem_of_nil in Hin].
Qed.

(** The frame of every window, in closed form. *)
Lemma compute_timeframes_frame now cache label days :
  (label, days) ∈ TIME_FRAMES →
  keys_are_integers cache →
  ∃ stats, compute_timeframes now cache = Done stats ∧
    stats !! label =
      Some (with_total
              (mkFrame (sum_from (start_of now days) adds (buckets cache))
                       (sum_from (start_of now days) dels (buckets cache))
                       None)).
Proof.
  intros Hin Hkeys. unfold compute_timeframes.
  destruct (repos_loop_frames now (map_to_list (default ∅ (repos cache)))
             (list_to_map ((λ '(label, _), (label, mkFrame 0 0 None))
                             <$> TIME_FRAMES)) Hkeys)
    as (res' & Hrun & Hres').
  eexists. split.
  - cbv zeta in Hrun |- *. rewrite Hrun. reflexivity.
  - rewrite (with_total_lookup _ _ _ Hin).
    rewrite (Hres' _ _ (boundaries_elem now _ _ Hin)).
    by rewrite (initial_result_lookup _ _ Hin).
Qed.

Lemma sum_from_all start_ts f l :
  Forall (λ kw, starts_from start_ts kw.1 = true) l →
  sum_from start_ts f l = sum_all f l.
Proof.
  induction 1 as [|[key week] l Hk _ IH]; [done|].
  rewrite sum_from_cons. cbn in Hk. rewrite Hk, IH. done.
Qed.

Lemma sum_from_mono lo hi f l :
  lo ≤ hi →
  Forall (λ kw, 0 ≤ f kw.2) l →
  sum_from hi f l ≤ sum_from lo f l ∧ 0 ≤ sum_from hi f l.
Proof.
  intros Hle. induction 1 as [|[key week] l Hk _ [IH1 IH2]]; [done|].
  rewrite !sum_from_cons. unfold starts_from. cbn in Hk.
  destruct (Py.int key) as [ts|]; [|done].
  destruct (Z.geb_spec ts hi), (Z.geb_spec ts lo); lia.
Qed.

(** A longer window starts no later: rounding to a double and [int]
    keep the order of the instants. *)
Lemma days_before_mono now d1 d2 :
  d1 ≤ d2 → days_before now d2 ≤ days_before now d1.
Proof.
  intros. unfold days_before, timestamp. apply int_true_div_mono.
  unfold day_us, second_us. lia.
Qed.

Lemma days_before_nonneg now days :
  days * day_us ≤ now → 0 ≤ days_before now days.
Proof.
  intros. unfold days_before, timestamp. apply int_true_div_nonneg. lia.
Qed.

(** Within 2^33 seconds of the epoch (until year 2242) the bound is the
    whole seconds of the instant [days] days before [now]. *)
Lemma days_before_exact now days :
  Z.abs (now - days * day_us) < 2 ^ 33 * second_us →
  days_before now days = Z.quot (now - days * day_us) second_us.
Proof.
  intros. unfold days_before, timestamp. by apply int_true_div_exact.
Qed.

End Aggregator.

(** C2, as stated, fails: the 'All Time' window has the lower bound 0 and
    the week that starts at -604800 is left out of it, so the window shows
    0 additions where the buckets of the cache sum to 1. *)
Lemma all_time_leaves_out_weeks_before_epoch :
  ∃ stats fr,
    compute_timeframes 1700000000000000 cache_before_epoch = Done stats ∧
    stats !! "All Time" = Some fr ∧
    additions fr = 0 ∧ deletions fr = 0 ∧
    sum_all adds (buckets cache_before_epoch) = 1 ∧
    sum_all dels (buckets cache_before_epoch) = 2.
Proof.
  eexists _, _. split; [vm_compute; reflexivity|].
  split; [vm_compute; reflexivity|]. by vm_compute.
Qed.

(** C2, amended: for every cache whose week keys are integers and every
    current time, the 'All Time' frame has additions equal to the sum of
    additions over the week buckets that start at 0 or later, deletions
    likewise, and total their sum; when every week starts at 0 or later
    these are the sums over every week bucket of every repository. *)
Theorem all_time_sums now cache :
  keys_are_integers cache →
  ∃ stats fr,
    compute_timeframes now cache = Done stats ∧
    stats !! "All Time" = Some fr ∧
    additions fr = sum_from 0 adds (buckets cache) ∧
    deletions fr = sum_from 0 dels (buckets cache) ∧
    total fr = Some (additions fr + deletions fr) ∧
    (Forall (λ kw, starts_from 0 kw.1 = true) (buckets cache) →
     additions fr = sum_all adds (buckets cache) ∧
     deletions fr = sum_all dels (buckets cache)).
Proof.
  intros Hkeys.
  destruct (compute_timeframes_frame now cache "All Time" 0)
    as (stats & Hrun & Hfr); [set_solver|done|].
  eexists stats, _. split; [done|]. split; [exact Hfr|]. cbn.
  do 3 (split; [done|]). intros Hall. by rewrite !sum_from_all.
Qed.

Lemma all_time_sums_witness :
  ∃ stats fr,
    compute_timeframes 1700000000000000 (mkCache (Some {[ "octo/a" :=
        mkEntry None false
          (Some {[ "1704067200" := mkWeek (Some 100) (Some 20) ]}) 0 ]}) None)
      = Done stats ∧
    stats !! "All Time" = Some fr ∧ additions fr = 100 ∧ deletions fr = 20.
Proof.
  destruct (all_time_sums 1700000000000000 (mkCache (Some {[ "octo/a" :=
        mkEntry None false
          (Some {[ "1704067200" := mkWeek (Some 100) (Some 20) ]}) 0 ]}) None))
    as (stats & fr & Hrun & Hfr & Ha & Hd & _).
  - unfold keys_are_integers. refine (bool_decide_unpack _ _). by vm_compute.
  - exists stats, fr. repeat split; [done..|rewrite Ha|rewrite Hd]; by vm_compute.
Defined.

(** C10: for every cache whose week keys are integers and whose buckets
    have non-negative additions and deletions, and every current time at
    least 365 days after the epoch, additions, deletions and total of
    'All Time' are at least those of 'Last Year', which are at least those
    of 'Last Month', which are at least those of 'Last Week'. *)
Theorem window_totals_monotone now cache :
  keys_are_integers cache →
  nonnegative_counts cache →
  365 * day_us ≤ now →
  ∃ stats all_time last_year last_month last_week,
    compute_timeframes now cache = Done stats ∧
    stats !! "All Time" = Some all_time ∧
    stats !! "Last Year" = Some last_year ∧
    stats !! "Last Month" = Some last_month ∧
    stats !! "Last Week" = Some last_week ∧
    frame_le last_year all_time ∧
    frame_le last_month last_year ∧
    frame_le last_week last_month.
Proof.
  intros Hkeys Hpos Hnow.
  destruct (compute_timeframes_frame now cache "All Time" 0)
    as (stats & Hrun & Hall); [set_solver|done|].
  destruct (compute_timeframes_frame now cache "Last Year" 365)
    as (? & Hrun' & Hyear); [set_solver|done|].
  rewrite Hrun in Hrun'. injection Hrun' as <-.
  destruct (compute_timeframes_frame now cache "Last Month" 30)
    as (? & Hrun' & Hmonth); [set_solver|done|].
  rewrite Hrun in Hrun'. injection Hrun' as <-.
  destruct (compute_timeframes_frame now cache "Last Week" 7)
    as (? & Hrun' & Hweek); [set_solver|done|].
  rewrite Hrun in Hrun'. injection Hrun' as <-.
  eexists stats, _, _, _, _.
  split; [done|]. do 4 (split; [eassumption|]).
  assert (Ha : Forall (λ kw, 0 ≤ adds kw.2) (buckets cache))
    by (eapply Forall_impl; [exact Hpos|]; by intros ? []).
  assert (Hd : Forall (λ kw, 0 ≤ dels kw.2) (buckets cache))
    by (eapply Forall_impl; [exact Hpos|]; by intros ? []).
  assert (H0 : start_of now 0 ≤ start_of now 365)
    by (apply days_before_nonneg; lia).
  assert (H1 : start_of now 365 ≤ start_of now 30)
    by (apply days_before_mono; lia).
  assert (H2 : start_of now 30 ≤ start_of now 7)
    by (apply days_before_mono; lia).
  pose proof (sum_from_mono _ _ adds _ H0 Ha) as [].
  pose proof (sum_from_mono _ _ dels _ H0 Hd) as [].
  pose proof (sum_from_mono _ _ adds _ H1 Ha) as [].
  pose proof (sum_from_mono _ _ dels _ H1 Hd) as [].
  pose proof (sum_from_mono _ _ adds _ H2 Ha) as [].
  pose proof (sum_from_mono _ _ dels _ H2 Hd) as [].
  unfold frame_le, with_total, start_of in *; cbn in *.
  split; [|split];
    (split; [lia|]; split; [lia|];
     eexists _, _; split; [done|]; split; [done|lia]).
Qed.

(** ** The fetch and the cache update *)

Section Fetch.

Context (env : Env).

Lemma requests_get_answered rq resp w :
  remote env (trace w) rq = Answered resp →
  requests_get env rq w = (Done resp, after (Requested rq) w).
Proof.
  intros Hresp. unfold requests_get, history, emit, mbind, M_bind.
  by rewrite Hresp.
Qed.

Lemma bind_done {A B} (m : M A) (f : A → M B) a w w' :
  m w = (Done a, w') → (m ≫= f) w = f a w'.
Proof. intros Hm. unfold mbind, M_bind. by rewrite Hm. Qed.

Lemma bind_raise {A B} (m : M A) (f : A → M B) e w w' :
  m w = (Raise e, w') → (m ≫= f) w = (Raise e, w').
Proof. intros Hm. unfold mbind, M_bind. by rewrite Hm. Qed.

(** A 304 answer: the ETag that was sent comes back, nothing else happens. *)
Lemma get_contributor_stats_304 token name etag resp w :
  remote env (trace w) (stats_request token name etag) = Answered resp →
  status_code resp = 304 →
  get_contributor_stats env token name etag w =
    (Done (None, etag, 304), after (Requested (stats_request token name etag)) w).
Proof.
  intros Hresp Hst. unfold get_contributor_stats.
  rewrite (bind_done _ _ _ _ _ (requests_get_answered _ _ _ Hresp)).
  by rewrite Hst.
Qed.

(** A 202 answer: the ETag of the answer comes back, nothing else happens. *)
Lemma get_contributor_stats_202 token name etag resp w :
  remote env (trace w) (stats_request token name etag) = Answered resp →
  status_code resp = 202 →
  get_contributor_stats env token name etag w =
    (Done (None, header_etag resp, 202),
     after (Requested (stats_request token name etag)) w).
Proof.
  intros Hresp Hst. unfold get_contributor_stats.
  rewrite (bind_done _ _ _ _ _ (requests_get_answered _ _ _ Hresp)).
  by rewrite Hst.
Qed.

(** An answer in the 4xx or 5xx range is raised as [HTTPError]. *)
Lemma get_contributor_stats_error token name etag resp w :
  remote env (trace w) (stats_request token name etag) = Answered resp →
  400 ≤ status_code resp < 600 →
  get_contributor_stats env token name etag w =
    (Raise (HTTPError (status_code resp)),
     after (Requested (stats_request token name etag)) w).
Proof.
  intros Hresp Hst. unfold get_contributor_stats.
  rewrite (bind_done _ _ _ _ _ (requests_get_answered _ _ _ Hresp)).
  cbn zeta.
  destruct (Z.eqb_spec (status_code resp) 304); [lia|].
  destruct (Z.eqb_spec (status_code resp) 202); [lia|].
  destruct (Z.eqb_spec (status_code resp) 200); [lia|].
  unfold raise_for_status.
  destruct (Z.leb_spec 400 (status_code resp)); [|lia].
  destruct (Z.ltb_spec (status_code resp) 600); [|lia].
  done.
Qed.

(** Every call of the history walk makes one temporary directory, whatever
    git does. *)
Lemma clone_and_count_once token name w :
  fallbacks (trace (clone_and_count env token name w).2) =
    S (fallbacks (trace w)).
Proof.
  unfold clone_and_count, try_finally, try_except, subprocess_run, history,
    emit, raise, lift, mbind, M_bind, mret, M_ret. cbn.
  destruct (git env _ (GitCloneBare token name)); cbn; [|done..].
  destruct (git env _ (GitLogNumstat _)); cbn; [|done..].
  by destruct (parse_numstat stdout0) as [|[]]; cbn.
Qed.

(** The history walk leaves the files alone. *)
Lemma clone_and_count_files token name w :
  cache_file (clone_and_count env token name w).2 = cache_file w ∧
  svg_file (clone_and_count env token name w).2 = svg_file w.
Proof.
  unfold clone_and_count, try_finally, try_except, subprocess_run, history,
    emit, raise, lift, mbind, M_bind, mret, M_ret. cbn.
  destruct (git env _ (GitCloneBare token name)); cbn; [|done..].
  destruct (git env _ (GitLogNumstat _)); cbn; [|done..].
  by destruct (parse_numstat stdout0) as [|[]]; cbn.
Qed.

Lemma fallback_then_update full_name repo token cache rs new_etag w :
  repos cache = Some rs →
  (weeks ← clone_and_count env token full_name;
   update_cache env full_name repo cache (Some weeks) new_etag) w =
  fallback_result env full_name repo token cache rs new_etag w.
Proof.
  intros Hrs. unfold fallback_result, mbind at 1, M_bind at 1.
  destruct (clone_and_count env token full_name w) as [[weeks|e] w']; [|done].
  unfold update_cache, datetime_now, lift, store, repos_of, mbind, M_bind,
    Exc_bind. cbn. by rewrite Hrs.
Qed.


End Fetch.

(** ** Processing one repository *)

Section ProcessRepo.

Context (env : Env).

(** C5: when the statistics call of pass 1 is answered 304, the step
    returns the cache it was given, equal in every entry and every field
    (weeks, ETag, privacy flag and time of the last fetch of this and of
    every other repository), queues nothing, and its only effect is the
    request itself; [_process_repo] with status 304 is the identity on the
    cache and has no effect. *)
Theorem unchanged_leaves_cache full_name repo token token_label cache rs
    pending resp w :
  repos cache = Some rs →
  remote env (trace w)
    (stats_request token full_name (rs !! full_name ≫= etag)) = Answered resp →
  status_code resp = 304 →
  pass1_step env (full_name, (repo, token, token_label)) (cache, pending) w =
    (Done (cache, pending),
     after (Requested (stats_request token full_name (rs !! full_name ≫= etag))) w)
  ∧ ∀ weeks new_etag w',
      _process_repo env full_name repo token cache weeks new_etag 304 w' =
        (Done cache, w').
Proof.
  intros Hrs Hresp Hst. split.
  - unfold pass1_step, repos_of, lift. rewrite Hrs.
    unfold mbind at 1, M_bind at 1.
    rewrite (bind_done _ _ _ _ _
               (get_contributor_stats_304 env _ _ _ _ _ Hresp Hst)).
    cbn. unfold _process_repo, repos_of, lift, mbind, M_bind. by rewrite Hrs.
  - intros. unfold _process_repo, repos_of, lift, mbind, M_bind.
    by rewrite Hrs.
Qed.

(** C4: a repository still answered 202 on pass 2.  When its entry holds
    weeks, the step returns the cache as it was and starts no history walk:
    its only effect is the request.  When the entry is absent, or has no
    weeks, the history walk runs once, and when it returns weeks the entry
    of the repository is the one made from them; for the empty list of
    weeks that entry exists and its weeks are the empty dictionary. *)
Theorem still_computing_on_pass2 full_name repo token old_etag cache rs resp w :
  repos cache = Some rs →
  remote env (trace w) (stats_request token full_name None) = Answered resp →
  status_code resp = 202 →
  let w1 := after (Requested (stats_request token full_name None)) w in
  let run := pass2_step env (full_name, repo, token, old_etag) cache w in
  (∀ entry held,
     rs !! full_name = Some entry → weeks entry = Some held → held ≠ ∅ →
     run = (Done cache, w1) ∧ fallbacks (trace w1) = fallbacks (trace w))
  ∧
  (rs !! full_name = None ∨
   (∃ entry, rs !! full_name = Some entry ∧
             (weeks entry = None ∨ weeks entry = Some ∅)) →
   ∃ fb w2,
     clone_and_count env token full_name w1 = (fb, w2) ∧
     fallbacks (trace w2) = S (fallbacks (trace w)) ∧
     run =
       (match fb with
        | Done weeks =>
            Done (mkCache
                    (Some (<[full_name :=
                             mkEntry (header_etag resp)
                                     (default false (private repo))
                                     (Some (weeks_dict_of weeks))
                                     (clock env (trace w2))]> rs))
                    (last_updated cache))
        | Raise e => Raise e
        end, w2) ∧
     (fb = Done [] →
      ∃ cache' rs' entry',
        run = (Done cache', w2) ∧ repos cache' = Some rs' ∧
        rs' !! full_name = Some entry' ∧ weeks entry' = Some ∅)).
Proof.
  intros Hrs Hresp Hst w1 run.
  assert (Hrun : run =
    _process_repo env full_name repo token cache None (header_etag resp) 202 w1).
  { unfold run, pass2_step.
    by rewrite (bind_done _ _ _ _ _
                  (get_contributor_stats_202 env _ _ _ _ _ Hresp Hst)). }
  assert (Hproc : ∀ held : bool, has_weeks (rs !! full_name) = held →
    run = if held then (Done cache, w1)
          else fallback_result env full_name repo token cache rs
                 (header_etag resp) w1).
  { intros held Hheld. rewrite Hrun.
    unfold _process_repo, repos_of, lift. rewrite Hrs.
    unfold mbind at 1, M_bind at 1. cbn match. cbn zeta.
    change (202 =? 304) with false. cbn match. rewrite Hheld.
    destruct held; [done|].
    apply (fallback_then_update env _ _ _ _ _ _ _ Hrs). }
  split.
  - intros entry held Hentry Hweeks Hheld. split; [|done].
    apply (Hproc true). unfold has_weeks. rewrite Hentry.
    destruct entry as [? ? held' ?]. cbn in Hweeks |- *. subst held'.
    by rewrite bool_decide_eq_false_2.
  - intros Hnone.
    assert (Hno : has_weeks (rs !! full_name) = false).
    { unfold has_weeks.
      destruct Hnone as [->|(entry & -> & [Hwk|Hwk])]; cbn;
        [done|by rewrite Hwk..]. }
    pose proof (Hproc false Hno) as Hfall. cbn in Hfall.
    unfold fallback_result in Hfall.
    destruct (clone_and_count env token full_name w1) as [fb w2] eqn:Hfb.
    exists fb, w2. split; [done|]. split.
    + pose proof (clone_and_count_once env token full_name w1) as Honce.
      by rewrite Hfb in Honce.
    + split; [exact Hfall|]. intros ->. eexists _, _, _.
      split; [exact Hfall|]. split; [done|].
      split; [apply lookup_insert_eq|done].
Qed.

End ProcessRepo.

(** ** The history walk *)

Section Walk.

Lemma week_ts_of_eq ts :
  week_ts_of ts = (ts `div` 86400 - weekday ts) * 86400.
Proof.
  unfold week_ts_of, weekday. cbv zeta.
  Z.to_euclidean_division_equations. lia.
Qed.

(** The week of a timestamp starts on a Monday at midnight UTC (the
    Monday after the epoch is day 4) and holds the timestamp. *)
Lemma week_ts_of_monday ts :
  week_ts_of ts ≤ ts < week_ts_of ts + 7 * 86400 ∧
  (week_ts_of ts - 4 * 86400) `mod` (7 * 86400) = 0.
Proof.
  rewrite week_ts_of_eq. unfold weekday.
  Z.to_euclidean_division_equations. lia.
Qed.

Lemma change_count_raises p e : change_count p = Raise e → e = ValueError.
Proof.
  unfold change_count, int_of. case_bool_decide; [done|].
  destruct (Py.int p); by intros [= <-].
Qed.

(** A file-entry line read under the timestamp [ts]: the two counts go
    to the bucket of the week of [ts], which is made first when the week
    has none; an entry with a count that is no integer changes nothing. *)
Lemma numstat_line_entry line weekly ts p0 p1 p2 rest :
  Py.strip line ≠ "" →
  Py.isdigit (Py.strip line) = false →
  Py.split tab (Py.strip line) = p0 :: p1 :: p2 :: rest →
  ts ≤ MAX_TIMESTAMP →
  (∀ adds dels,
     change_count p0 = Done adds → change_count p1 = Done dels →
     ∃ weekly',
       numstat_line line (weekly, Some ts) = Done (weekly', Some ts) ∧
       weekly' !! week_ts_of ts =
         Some ((default (0, 0) (weekly !! week_ts_of ts)).1 + adds,
               (default (0, 0) (weekly !! week_ts_of ts)).2 + dels) ∧
       ∀ k, k ≠ week_ts_of ts → weekly' !! k = weekly !! k) ∧
  (change_count p0 = Raise ValueError ∨ change_count p1 = Raise ValueError →
   numstat_line line (weekly, Some ts) = Done (weekly, Some ts)).
Proof.
  intros Hline Hdigit Hparts Hts.
  assert (Hmax : (ts >? MAX_TIMESTAMP) = false) by (rewrite Z.gtb_ltb; apply Z.ltb_ge; lia).
  split.
  - intros adds dels Ha Hd. unfold numstat_line. cbv zeta.
    rewrite bool_decide_eq_false_2 by done. rewrite Hdigit, Hparts, Ha, Hd.
    cbn [mbind Exc_bind mret Exc_ret]. rewrite Hmax. eexists. split; [done|].
    destruct (weekly !! week_ts_of ts) as [[a d]|] eqn:Hold; cbn.
    + split; [by rewrite lookup_alter_eq, Hold|].
      intros k Hk. by rewrite lookup_alter_ne.
    + split; [by rewrite lookup_alter_eq, lookup_insert_eq|].
      intros k Hk. by rewrite lookup_alter_ne, lookup_insert_ne.
  - intros Hbad. unfold numstat_line. cbv zeta.
    rewrite bool_decide_eq_false_2 by done. rewrite Hdigit, Hparts.
    destruct Hbad as [Hbad|Hbad].
    + by rewrite Hbad.
    + rewrite Hbad. destruct (change_count p0) as [adds|e] eqn:Ha; [done|].
      by rewrite (change_count_raises _ _ Ha).
Qed.

Lemma for_each_app {A S} (l1 l2 : list A) (body : A → S → Exc S) s :
  for_each (l1 ++ l2) body s = (s' ← for_each l1 body s; for_each l2 body s').
Proof.
  revert s. induction l1 as [|x l1 IH]; intros s; [done|].
  cbn [app for_each]. destruct (body x s) as [t|e]; cbn; [apply IH|done].
Qed.

(** A timestamp line replaces the current timestamp, whatever it was, and
    leaves the buckets alone. *)
Lemma numstat_line_stamp line weekly current_ts ts :
  Py.isdigit (Py.strip line) = true →
  Py.int (Py.strip line) = Some ts →
  numstat_line line (weekly, current_ts) = Done (weekly, Some ts).
Proof.
  intros Hdigit Hint. unfold numstat_line. cbv zeta.
  case_bool_decide as Hempty; [by rewrite Hempty in Hdigit|].
  by rewrite Hdigit, (int_of_Some _ _ Hint).
Qed.

(** A line that is no timestamp line keeps the current timestamp, and
    does not raise when [datetime] accepts that timestamp. *)
Lemma numstat_line_keeps_stamp line weekly ts :
  Py.isdigit (Py.strip line) = false →
  ts ≤ MAX_TIMESTAMP →
  ∃ weekly', numstat_line line (weekly, Some ts) = Done (weekly', Some ts).
Proof.
  intros Hdigit Hts. unfold numstat_line. cbv zeta.
  case_bool_decide; [by eexists|]. rewrite Hdigit.
  destruct (Py.split tab _) as [|p0 [|p1 [|p2 rest]]]; try by eexists.
  destruct (change_count p0) as [adds|e0] eqn:H0; cbn.
  2: { rewrite (change_count_raises _ _ H0). by eexists. }
  destruct (change_count p1) as [dels|e1] eqn:H1; cbn.
  2: { rewrite (change_count_raises _ _ H1). by eexists. }
  assert ((ts >? MAX_TIMESTAMP) = false) as ->
    by (rewrite Z.gtb_ltb; apply Z.ltb_ge; lia).
  by eexists.
Qed.

Lemma walk_keeps_stamp lines weekly ts :
  Forall (λ line, Py.isdigit (Py.strip line) = false) lines →
  ts ≤ MAX_TIMESTAMP →
  ∃ weekly', for_each lines numstat_line (weekly, Some ts) = Done (weekly', Some ts).
Proof.
  intros Hlines Hts. revert weekly.
  induction Hlines as [|line lines Hline _ IH]; intros weekly; [by eexists|].
  destruct (numstat_line_keeps_stamp line weekly ts Hline Hts) as [weekly1 Hstep].
  destruct (IH weekly1) as [weekly' Hrest]. exists weekly'.
  cbn [for_each]. by rewrite Hstep.
Qed.

(** A bucket of the loop is a week of the list that is returned. *)
Lemma weeks_of_elem weekly week_ts a d :
  weekly !! week_ts = Some (a, d) →
  mkApiWeek (Some week_ts) (Some a) (Some d) ∈ weeks_of weekly.
Proof.
  intros Hweek. unfold weeks_of.
  apply (list_elem_of_fmap_2 (λ '(ts, (a, d)), mkApiWeek (Some ts) (Some a) (Some d))
           _ (week_ts, (a, d))).
  rewrite merge_sort_Permutation. by apply elem_of_map_to_list.
Qed.

End Walk.

(** C8, as stated, fails: the entry of a binary file is not skipped.  Its
    counts are read as zeros and the entry is recorded like any other, so a
    commit whose only change is a binary file makes a week bucket where
    skipping the entry would leave none; an entry with one count missing
    adds its other count. *)
Lemma binary_entry_is_recorded :
  parse_numstat binary_log = Done [mkApiWeek (Some 1699833600) (Some 0) (Some 0)] ∧
  parse_numstat bare_log = Done [] ∧
  parse_numstat half_numeric_log =
    Done [mkApiWeek (Some 1699833600) (Some 0) (Some 7)].
Proof. by vm_compute. Qed.

(** C8, amended.  The log is read line by line from the empty table of
    buckets.  Take any commit of it: a timestamp line (all digits once
    stripped) whose number [ts] is one [datetime] accepts, whatever lines
    and commits came before it, followed by lines none of which is a
    timestamp line, and then a file-entry line (at least three
    tab-separated fields).  None of these lines raises, the timestamp in
    force at the entry is [ts], the timestamp of this commit and of no
    earlier one, and the two counts of the entry are added to the bucket
    of the week that starts on the Monday, 00:00 UTC, at or before [ts],
    the bucket being made first when the week has none, while every other
    bucket is as it was; the week with the new sums is in the list the
    parse returns when the log ends there.  A count written as a dash is
    the number 0, so the entry of a binary file is recorded with zeros; an
    entry one of whose counts is neither a dash nor an integer changes
    nothing; neither case raises. *)
Theorem numstat_entry_counted before stamp between line weekly1 current1 ts
    p0 p1 p2 rest :
  for_each before numstat_line (∅, None) = Done (weekly1, current1) →
  Py.isdigit (Py.strip stamp) = true →
  Py.int (Py.strip stamp) = Some ts →
  ts ≤ MAX_TIMESTAMP →
  Forall (λ other, Py.isdigit (Py.strip other) = false) between →
  Py.strip line ≠ "" →
  Py.isdigit (Py.strip line) = false →
  Py.split tab (Py.strip line) = p0 :: p1 :: p2 :: rest →
  ∃ weekly2,
    for_each (before ++ [stamp]) numstat_line (∅, None)
      = Done (weekly1, Some ts) ∧
    for_each (before ++ stamp :: between) numstat_line (∅, None)
      = Done (weekly2, Some ts) ∧
    (week_ts_of ts ≤ ts < week_ts_of ts + 7 * 86400 ∧
     (week_ts_of ts - 4 * 86400) `mod` (7 * 86400) = 0) ∧
    change_count "-" = Done 0 ∧
    (∀ adds dels,
       change_count p0 = Done adds → change_count p1 = Done dels →
       ∃ weekly3,
         for_each (before ++ stamp :: between ++ [line]) numstat_line (∅, None)
           = Done (weekly3, Some ts) ∧
         weekly3 !! week_ts_of ts =
           Some ((default (0, 0) (weekly2 !! week_ts_of ts)).1 + adds,
                 (default (0, 0) (weekly2 !! week_ts_of ts)).2 + dels) ∧
         (∀ k, k ≠ week_ts_of ts → weekly3 !! k = weekly2 !! k) ∧
         (∀ stdout,
            Py.splitlines stdout = before ++ stamp :: between ++ [line] →
            ∃ weeks,
              parse_numstat stdout = Done weeks ∧
              mkApiWeek (Some (week_ts_of ts))
                (Some ((default (0, 0) (weekly2 !! week_ts_of ts)).1 + adds))
                (Some ((default (0, 0) (weekly2 !! week_ts_of ts)).2 + dels))
                ∈ weeks)) ∧
    (change_count p0 = Raise ValueError ∨ change_count p1 = Raise ValueError →
     for_each (before ++ stamp :: between ++ [line]) numstat_line (∅, None)
       = Done (weekly2, Some ts)).
Proof.
  intros Hbefore Hstamp Hint Hts Hbetween Hline Hdigit Hparts.
  destruct (walk_keeps_stamp between weekly1 ts Hbetween Hts)
    as [weekly2 Hwalk].
  assert (Hupto : for_each (before ++ stamp :: between) numstat_line (∅, None)
                  = Done (weekly2, Some ts)).
  { rewrite for_each_app, Hbefore. cbn [mbind Exc_bind for_each].
    by rewrite (numstat_line_stamp _ _ _ _ Hstamp Hint). }
  assert (Hlast : for_each (before ++ stamp :: between ++ [line]) numstat_line
                    (∅, None)
                  = numstat_line line (weekly2, Some ts)).
  { rewrite app_comm_cons, app_assoc, for_each_app, Hupto.
    cbn [mbind Exc_bind for_each]. by destruct (numstat_line _ _). }
  destruct (numstat_line_entry line weekly2 ts p0 p1 p2 rest
              Hline Hdigit Hparts Hts) as [Hcounted Hskipped].
  exists weekly2. split.
  { rewrite for_each_app, Hbefore. cbn [mbind Exc_bind for_each].
    by rewrite (numstat_line_stamp _ _ _ _ Hstamp Hint). }
  split; [exact Hupto|]. split; [apply week_ts_of_monday|]. split; [done|].
  split.
  - intros adds dels Ha Hd.
    destruct (Hcounted adds dels Ha Hd) as (weekly3 & Hstep & Hweek & Hrest).
    exists weekly3. split; [by rewrite Hlast|]. split; [exact Hweek|].
    split; [exact Hrest|]. intros stdout Hlines. eexists. split.
    + unfold parse_numstat. rewrite Hlines, Hlast, Hstep. reflexivity.
    + by apply weeks_of_elem.
  - intros Hbad. rewrite Hlast. by apply Hskipped.
Qed.

Lemma numstat_entry_counted_witness :
  ∃ weeks,
    parse_numstat two_commit_log = Done weeks ∧
    mkApiWeek (Some 1700438400) (Some 7) (Some 2) ∈ weeks.
Proof.
  destruct (numstat_entry_counted
              ["1700000000"; "5" +:+ tab_text +:+ "3" +:+ tab_text +:+ "a.py"; ""]
              "1700700000"
              ["-" +:+ tab_text +:+ "-" +:+ tab_text +:+ "img.png"]
              ("7" +:+ tab_text +:+ "2" +:+ tab_text +:+ "b.py")
              {[ 1699833600 := (5, 3) ]} (Some 1700000000) 1700700000
              "7" "2" "b.py" [])
    as (weekly2 & _ & Hupto & _ & _ & Hcounted & _);
    [by vm_compute|done|done|done|by repeat constructor|done|done|done|].
  destruct (Hcounted 7 2) as (weekly3 & _ & _ & _ & Hparse); [done|done|].
  destruct (Hparse two_commit_log) as (weeks & Hrun & Hin); [by vm_compute|].
  exists weeks. split; [exact Hrun|].
  vm_compute in Hupto. injection Hupto as <-. exact Hin.
Defined.

(** ** Witnesses of the processing theorems *)

Lemma unchanged_leaves_cache_witness :
  pass1_step (sample_env (λ _, sample_answer 304 "4000" []) TimeoutExpired)
             ("octo/a", (octo_a, "t0", "personal")) (stale_cache, []) stale_world
  = (Done (stale_cache, []),
     after (Requested (stats_request "t0" "octo/a" (Some "W/e1"))) stale_world).
Proof.
  destruct (unchanged_leaves_cache
              (sample_env (λ _, sample_answer 304 "4000" []) TimeoutExpired)
              "octo/a" octo_a "t0" "personal" stale_cache
              {[ "octo/a" := stale_entry ]} [] (sample_answer 304 "4000" [])
              stale_world) as [Hstep _]; [reflexivity..|].
  exact Hstep.
Defined.

Lemma still_computing_on_pass2_witness :
  pass2_step (sample_env (λ _, sample_answer 202 "4000" []) TimeoutExpired)
             ("octo/a", octo_a, "t0", None) stale_cache stale_world
  = (Done stale_cache,
     after (Requested (stats_request "t0" "octo/a" None)) stale_world).
Proof.
  destruct (still_computing_on_pass2
              (sample_env (λ _, sample_answer 202 "4000" []) TimeoutExpired)
              "octo/a" octo_a "t0" None stale_cache
              {[ "octo/a" := stale_entry ]} (sample_answer 202 "4000" [])
              stale_world) as [Hheld _]; [reflexivity..|].
  by destruct (Hheld stale_entry
                 {[ "1699228800" := mkWeek (Some 10) (Some 4) ]}) as [-> _].
Defined.

Lemma window_totals_monotone_witness :
  ∃ stats all_time last_week,
    compute_timeframes (1700000000 * second_us) stale_cache = Done stats ∧
    stats !! "All Time" = Some all_time ∧
    stats !! "Last Week" = Some last_week ∧
    additions last_week ≤ additions all_time.
Proof.
  destruct (window_totals_monotone (1700000000 * second_us) stale_cache)
    as (stats & all_time & last_year & last_month & last_week & Hrun & Hall &
        _ & _ & Hweek & Hya & Hmy & Hwm).
  - unfold keys_are_integers. refine (bool_decide_unpack _ _). by vm_compute.
  - unfold nonnegative_counts. refine (bool_decide_unpack _ _). by vm_compute.
  - by vm_compute.
  - exists stats, all_time, last_week. repeat split; [done..|].
    destruct Hya as [? _], Hmy as [? _], Hwm as [? _]. lia.
Defined.

(** ** The run as a whole *)

(** C1 on the code: octo/a is answered 500 and octo/b is ready.  The
    [HTTPError] of octo/a leaves [main]: octo/b is never asked for, no card
    is written and the cache file is not written. *)
Lemma main_aborts_on_hard_failure :
  main env_hard_failure stale_world =
    (Raise (HTTPError 500),
     mkWorld [Requested (stats_request "t0" "octo/a" (Some "W/e1")); Listed "t0"]
             (cache_file stale_world) None).
Proof. by vm_compute. Qed.

(** C6 on the code: with 5 requests left the fetch sleeps until the reset
    when the answer is 200, and does not sleep when it is 202 or 304. *)
Lemma quota_checked_only_when_ready :
  sleeps (trace (get_contributor_stats (env_low_quota 200) "t0" "octo/a" None
                   blank_world).2) = [3600] ∧
  sleeps (trace (get_contributor_stats (env_low_quota 202) "t0" "octo/a" None
                   blank_world).2) = [] ∧
  sleeps (trace (get_contributor_stats (env_low_quota 304) "t0" "octo/a"
                   (Some "W/e1") blank_world).2) = [].
Proof. by vm_compute. Qed.

(** ** The cache file *)

(** C7, as stated, fails: a cache file that holds a JSON array is loaded
    as that array, not as an empty cache, and the run then stops on a
    [TypeError]; a cache file whose bytes are no text makes [load_cache]
    raise. *)
Lemma load_cache_keeps_other_documents :
  load_cache array_world = (Done (NotDict (JArray [])), array_world) ∧
  (main (sample_env (λ _, sample_answer 200 "4000" []) TimeoutExpired)
        array_world).1 = Raise TypeError ∧
  load_cache bad_bytes_world = (Raise UnicodeDecodeError, bad_bytes_world).
Proof. by vm_compute. Qed.

(** C7, amended: when the cache file is absent, or holds text that is no
    JSON document (nothing, the beginning of a document, anything else the
    parser rejects), loading does not raise and yields the empty cache, and
    the aggregate of that cache is zero additions, deletions and total in
    every window. *)
Theorem missing_or_broken_cache_is_empty w now :
  cache_file w = None ∨ cache_file w = Some EmptyFile ∨
  cache_file w = Some PartialText ∨ cache_file w = Some BrokenText →
  load_cache w = (Done (Dict empty_cache), w) ∧
  ∃ stats,
    compute_timeframes now empty_cache = Done stats ∧
    ∀ label days, (label, days) ∈ TIME_FRAMES → stats !! label = Some zero_frame.
Proof.
  intros Hfile. split.
  - unfold load_cache. by destruct Hfile as [->|[->|[->| ->]]].
  - eexists. split; [reflexivity|].
    intros label days Hin. unfold TIME_FRAMES in Hin.
    by repeat (apply elem_of_cons in Hin as [[= -> ->]|Hin]);
      [..|apply elem_of_nil in Hin].
Qed.

Lemma missing_or_broken_cache_is_empty_witness :
  load_cache blank_world = (Done (Dict empty_cache), blank_world) ∧
  ∃ stats,
    compute_timeframes (1700000000 * second_us) empty_cache = Done stats ∧
    stats !! "Last Week" = Some zero_frame.
Proof.
  destruct (missing_or_broken_cache_is_empty blank_world
              (1700000000 * second_us)) as [Hload (stats & Hrun & Hzero)];
    [by left|].
  split; [exact Hload|]. exists stats. split; [exact Hrun|].
  apply (Hzero "Last Week" 7). set_solver.
Defined.

(** C9, as stated, fails: when the process dies after [save_cache] has
    opened the cache file and before it has written all of the new text,
    the file that held the previous cache is empty or holds the beginning
    of the new text, and the next run loads an empty cache. *)
Lemma crash_during_save_loses_cache :
  cache_file stale_world = Some (JsonText (Dict stale_cache)) ∧
  crash_at 1 stale_cache (cache_file stale_world) = Some EmptyFile ∧
  crash_at 2 stale_cache (cache_file stale_world) = Some PartialText ∧
  load_cache (mkWorld [] (crash_at 1 stale_cache (cache_file stale_world)) None)
    = (Done (Dict empty_cache), mkWorld [] (Some EmptyFile) None).
Proof. by vm_compute. Qed.

Section Save.

Context (env : Env).

(** C9, amended: [save_cache] writes the cache file in place.  It sets
    [last_updated], opens the file itself for writing, which empties it
    whatever it held, and writes the new text into it; there is no step on
    another file and no replacement.  Once all steps are done the file
    holds the new cache; after the first of them it is empty, and after the
    second it holds part of the text. *)
Theorem save_cache_writes_in_place cache w :
  let stamped :=
    mkCache (repos cache) (Some (clock env (CacheFile MakeDirs :: trace w))) in
  save_cache env cache w =
    (Done stamped,
     mkWorld (CacheFile (WriteAll stamped) :: CacheFile WriteSome ::
              CacheFile OpenForWriting :: CacheFile MakeDirs :: trace w)
             (Some (JsonText (Dict stamped))) (svg_file w)) ∧
  crash_at 0 stamped (cache_file w) = cache_file w ∧
  crash_at 1 stamped (cache_file w) = Some EmptyFile ∧
  crash_at 2 stamped (cache_file w) = Some PartialText ∧
  crash_at 3 stamped (cache_file w) = Some (JsonText (Dict stamped)).
Proof. done. Qed.

End Save.

(** * Further properties of the script *)

(** ** Week keys: [str] then [int] *)

Section Numerals.

Import DecimalString.

Lemma digits_from_uint acc d :
  Py.digits_from acc (NilEmpty.string_of_uint d) = Some (uint_val acc d).
Proof.
  revert acc. induction d; intros acc; cbn [NilEmpty.string_of_uint uint_val];
    [done|..]; cbn [Py.digits_from];
    match goal with
    | |- context [Py.decimal ?c] =>
        change (Py.decimal c) with true; cbn match;
        match goal with
        | |- context [Py.digit_val c] =>
            let v := eval vm_compute in (Py.digit_val c) in
            change (Py.digit_val c) with v
        end
    end; apply IHd.
Qed.

Lemma uint_val_pos d p :
  uint_val (Zpos p) d = Zpos (Pos.of_uint_acc d p).
Proof.
  revert p. induction d; intros p; cbn [uint_val Pos.of_uint_acc]; [done|..].
  all: rewrite <- IHd; f_equal; lia.
Qed.

Lemma uint_val_zero d : uint_val 0 d = Z.of_N (Pos.of_uint d).
Proof.
  induction d; cbn [uint_val Pos.of_uint]; [done|exact IHd|..];
    cbn [Z.of_N]; by rewrite <- uint_val_pos.
Qed.

Lemma digits_uint d :
  d ≠ Decimal.Nil →
  Py.digits (NilEmpty.string_of_uint d) = Some (uint_val 0 d).
Proof.
  intros Hd. destruct d; [done|..];
    cbn [NilEmpty.string_of_uint Py.digits];
    match goal with
    | |- context [Py.decimal ?c] =>
        change (Py.decimal c) with true; cbn match;
        match goal with
        | |- context [Py.digit_val c] =>
            let v := eval vm_compute in (Py.digit_val c) in
            change (Py.digit_val c) with v
        end
    end; rewrite digits_from_uint; done.
Qed.

Lemma digits_to_uint p :
  Py.digits (NilEmpty.string_of_uint (Pos.to_uint p)) = Some (Zpos p).
Proof.
  rewrite digits_uint by apply DecimalPos.Unsigned.to_uint_nonnil.
  by rewrite uint_val_zero, DecimalPos.Unsigned.of_to.
Qed.

(** The text of a numeral has no blank in it. *)
Lemma uint_no_blank d :
  Py.all_chars (λ c, negb (Py.int_blank c)) (NilEmpty.string_of_uint d) = true.
Proof. induction d; cbn [NilEmpty.string_of_uint Py.all_chars]; [done|..]; exact IHd. Qed.

Lemma rstrip_no_blank blank s :
  Py.all_chars (λ c, negb (blank c)) s = true → Py.rstrip blank s = s.
Proof.
  induction s as [|c r IH]; [done|]. cbn [Py.all_chars Py.rstrip].
  intros [Hc Hr]%andb_true_iff. rewrite (IH Hr).
  destruct r; [|done]. by destruct (blank c).
Qed.

Lemma lstrip_no_blank blank s :
  Py.all_chars (λ c, negb (blank c)) s = true → Py.lstrip blank s = s.
Proof.
  destruct s as [|c r]; [done|]. cbn [Py.all_chars Py.lstrip].
  intros [Hc _]%andb_true_iff. by destruct (blank c).
Qed.

Lemma string_of_uint_head d :
  d ≠ Decimal.Nil →
  ∃ c r, NilEmpty.string_of_uint d = String c r ∧ Py.decimal c = true.
Proof. intros Hd. destruct d; [done|..]; by eexists _, _. Qed.

Lemma nilzero_to_uint p :
  NilZero.string_of_uint (Pos.to_uint p) =
    NilEmpty.string_of_uint (Pos.to_uint p).
Proof.
  unfold NilZero.string_of_uint.
  pose proof (DecimalPos.Unsigned.to_uint_nonnil p).
  by destruct (Pos.to_uint p).
Qed.

Lemma decimal_not_sign c :
  Py.decimal c = true → (Py.code c =? 45) = false ∧ (Py.code c =? 43) = false.
Proof.
  unfold Py.decimal, Py.between. intros [?%Z.leb_le ?%Z.leb_le]%andb_true_iff.
  split; apply Z.eqb_neq; lia.
Qed.

(** The text [str] makes of an integer is read back by [int] as the same
    integer. *)
Lemma int_str n : Py.int (Py.str n) = Some n.
Proof.
  unfold Py.str, Py.int. destruct n as [|p|p]; [done|..];
    cbn [Z.to_int NilZero.string_of_int]; rewrite nilzero_to_uint.
  - rewrite lstrip_no_blank, rstrip_no_blank by apply uint_no_blank.
    destruct (string_of_uint_head (Pos.to_uint p)) as (c & r & Hs & Hc);
      [apply DecimalPos.Unsigned.to_uint_nonnil|].
    pose proof (digits_to_uint p) as Hdigits. rewrite Hs in Hdigits |- *.
    destruct (decimal_not_sign c Hc) as [-> ->]. exact Hdigits.
  - assert (Hno : Py.all_chars (λ c, negb (Py.int_blank c))
                    (String "-" (NilEmpty.string_of_uint (Pos.to_uint p))) = true)
      by (cbn [Py.all_chars]; apply uint_no_blank).
    rewrite lstrip_no_blank, rstrip_no_blank by exact Hno.
    change (Py.code "-" =? 45) with true. cbn match.
    by rewrite digits_to_uint.
Qed.

Lemma str_inj m n : Py.str m = Py.str n → m = n.
Proof.
  intros Heq. pose proof (int_str m) as Hm. rewrite Heq, int_str in Hm.
  by injection Hm.
Qed.

End Numerals.

(** ** [_process_repo], branch by branch *)

Section ProcessRepoMore.

Context (env : Env).

Lemma update_cache_stored full_name repo cache rs weeks new_etag w :
  repos cache = Some rs →
  update_cache env full_name repo cache (Some weeks) new_etag w =
    (Done (stored cache rs full_name repo new_etag weeks (clock env (trace w))), w).
Proof.
  intros Hrs. unfold update_cache, datetime_now, lift, store, repos_of, mbind,
    M_bind, Exc_bind. cbn. by rewrite Hrs.
Qed.

(** All the branches of [_process_repo] at once. *)
Lemma process_repo_cases full_name repo token cache rs weeks new_etag status w :
  repos cache = Some rs →
  _process_repo env full_name repo token cache weeks new_etag status w =
    if status =? 304 then (Done cache, w)
    else match weeks with
         | Some [] =>
             (Done (stored cache rs full_name repo new_etag []
                           (clock env (trace w))), w)
         | Some api_weeks =>
             if (sum_a api_weeks =? 0) && (sum_d api_weeks =? 0)
             then fallback_result env full_name repo token cache rs new_etag w
             else (Done (stored cache rs full_name repo new_etag api_weeks
                                (clock env (trace w))), w)
         | None =>
             if has_weeks (rs !! full_name) then (Done cache, w)
             else fallback_result env full_name repo token cache rs new_etag w
         end.
Proof.
  intros Hrs. unfold _process_repo, repos_of, lift. rewrite Hrs.
  unfold mbind at 1, M_bind at 1. cbn match. cbn zeta.
  destruct (status =? 304); [done|].
  destruct weeks as [[|wk rest]|].
  - unfold datetime_now, lift, store, repos_of, mbind, M_bind, Exc_bind.
    cbn. by rewrite Hrs.
  - destruct ((sum_a (wk :: rest) =? 0) && (sum_d (wk :: rest) =? 0)).
    + apply (fallback_then_update env _ _ _ _ _ _ _ Hrs).
    + apply (update_cache_stored _ _ _ _ _ _ _ Hrs).
  - destruct (has_weeks (rs !! full_name)); [done|].
    apply (fallback_then_update env _ _ _ _ _ _ _ Hrs).
Qed.

Lemma fallback_result_cases full_name repo token cache rs new_etag w :
  ∃ w', (fallback_result env full_name repo token cache rs new_etag w).2 = w' ∧
    cache_file w' = cache_file w ∧ svg_file w' = svg_file w ∧
    ((∃ e, (fallback_result env full_name repo token cache rs new_etag w).1
             = Raise e) ∨
     (∃ weeks,
        (fallback_result env full_name repo token cache rs new_etag w).1
          = Done (stored cache rs full_name repo new_etag weeks
                         (clock env (trace w'))))).
Proof.
  unfold fallback_result.
  pose proof (clone_and_count_files env token full_name w) as [Hc Hs].
  destruct (clone_and_count env token full_name w) as [[weeks|e] w'];
    cbn in *; eexists; (split; [done|]); (split; [done|]); (split; [done|]);
    eauto.
Qed.

(** Whatever the answer, [_process_repo] touches no entry but the one of
    its repository: when it returns, every other entry and [last_updated]
    are as before, and neither file was written. *)
Theorem process_repo_only_own_entry full_name repo token cache weeks new_etag
    status w cache' w' :
  _process_repo env full_name repo token cache weeks new_etag status w =
    (Done cache', w') →
  last_updated cache' = last_updated cache ∧
  cache_file w' = cache_file w ∧ svg_file w' = svg_file w ∧
  ∃ rs rs', repos cache = Some rs ∧ repos cache' = Some rs' ∧
    ∀ other, other ≠ full_name → rs' !! other = rs !! other.
Proof.
  intros Hrun. destruct (repos cache) as [rs|] eqn:Hrs.
  2: { unfold _process_repo, repos_of, lift, mbind, M_bind in Hrun.
       by rewrite Hrs in Hrun. }
  rewrite (process_repo_cases _ _ _ _ _ _ _ _ _ Hrs) in Hrun.
  enough (Hcases :
    cache_file w' = cache_file w ∧ svg_file w' = svg_file w ∧
    (cache' = cache ∨
     ∃ l now, cache' = stored cache rs full_name repo new_etag l now)).
  { destruct Hcases as (Hcf & Hsf & [->|(l & now & ->)]).
    - repeat split; [done..|]. by exists rs, rs.
    - repeat split; [done..|]. eexists rs, _.
      repeat split. intros other Hother. by apply lookup_insert_ne. }
  assert (Hfall :
    fallback_result env full_name repo token cache rs new_etag w
      = (Done cache', w') →
    cache_file w' = cache_file w ∧ svg_file w' = svg_file w ∧
    (cache' = cache ∨
     ∃ l now, cache' = stored cache rs full_name repo new_etag l now)).
  { intros Hfb.
    destruct (fallback_result_cases full_name repo token cache rs new_etag w)
      as (v' & Hv & Hcf & Hsf & Hres).
    rewrite Hfb in Hv, Hres. cbn in Hv, Hres. subst v'.
    destruct Hres as [[e [=]]|[l [= ->]]]. eauto 6. }
  destruct (status =? 304); [injection Hrun as <- <-; eauto|].
  destruct weeks as [[|wk rest]|].
  - injection Hrun as <- <-. eauto 6.
  - destruct (_ && _); [by apply Hfall|]. injection Hrun as <- <-. eauto 6.
  - destruct (has_weeks _); [injection Hrun as <- <-; eauto|by apply Hfall].
Qed.

(** A ready answer that is empty, or whose additions or deletions do not
    sum to zero, is stored as it is: the entry holds the weeks of the
    answer and the new ETag, and nothing else happens (no history walk, no
    request, no sleep). *)
Theorem ready_answer_is_stored full_name repo token cache rs api_weeks new_etag
    status w :
  repos cache = Some rs →
  status ≠ 304 →
  api_weeks = [] ∨ sum_a api_weeks ≠ 0 ∨ sum_d api_weeks ≠ 0 →
  _process_repo env full_name repo token cache (Some api_weeks) new_etag status w
    = (Done (mkCache
               (Some (<[full_name :=
                        mkEntry new_etag (default false (private repo))
                                (Some (weeks_dict_of api_weeks))
                                (clock env (trace w))]> rs))
               (last_updated cache)), w).
Proof.
  intros Hrs Hst Hweeks.
  rewrite (process_repo_cases _ _ _ _ _ _ _ _ _ Hrs).
  destruct (Z.eqb_spec status 304); [done|].
  destruct api_weeks as [|wk rest]; [done|].
  destruct Hweeks as [?|Hsum]; [done|].
  assert ((sum_a (wk :: rest) =? 0) && (sum_d (wk :: rest) =? 0) = false) as ->;
    [|done].
  apply andb_false_iff. destruct Hsum; [left|right]; by apply Z.eqb_neq.
Qed.

(** A weeks value of [None] is handled the same for every status but
    304: [_process_repo] does not tell 202 from any other status. *)
Lemma process_repo_none_any_status full_name repo token cache new_etag status w :
  status ≠ 304 →
  _process_repo env full_name repo token cache None new_etag status w =
  _process_repo env full_name repo token cache None new_etag 202 w.
Proof.
  intros Hst. unfold _process_repo.
  destruct (Z.eqb_spec status 304); [done|]. done.
Qed.

(** An answer whose status is none of 200, 202, 304 and is no error status
    (400 to 599) is not raised: the fetch returns it with no weeks, and the
    repository is then processed exactly as if the answer had been 202. *)
Theorem unexpected_status_is_computing token full_name etag resp repo cache w :
  remote env (trace w) (stats_request token full_name etag) = Answered resp →
  status_code resp ≠ 200 → status_code resp ≠ 202 → status_code resp ≠ 304 →
  ¬ (400 ≤ status_code resp < 600) →
  get_contributor_stats env token full_name etag w =
    (Done (None, header_etag resp, status_code resp),
     after (Requested (stats_request token full_name etag)) w) ∧
  ∀ w',
    _process_repo env full_name repo token cache None (header_etag resp)
                  (status_code resp) w' =
    _process_repo env full_name repo token cache None (header_etag resp) 202 w'.
Proof.
  intros Hresp H200 H202 H304 Herr. split.
  - unfold get_contributor_stats.
    rewrite (bind_done _ _ _ _ _ (requests_get_answered _ _ _ _ Hresp)).
    cbn zeta.
    destruct (Z.eqb_spec (status_code resp) 304); [done|].
    destruct (Z.eqb_spec (status_code resp) 202); [done|].
    destruct (Z.eqb_spec (status_code resp) 200); [done|].
    unfold raise_for_status.
    destruct (Z.leb_spec 400 (status_code resp)),
             (Z.ltb_spec (status_code resp) 600); try done. lia.
  - intros w'. by apply process_repo_none_any_status.
Qed.

(** Pass 1 on a 202 answer: the cache is returned as it is and the
    repository is put at the end of the queue with the ETag of the
    answer. *)
Theorem computing_is_queued full_name repo token token_label cache rs pending
    resp w :
  repos cache = Some rs →
  remote env (trace w)
    (stats_request token full_name (rs !! full_name ≫= etag)) = Answered resp →
  status_code resp = 202 →
  pass1_step env (full_name, (repo, token, token_label)) (cache, pending) w =
    (Done (cache, pending ++ [(full_name, repo, token, header_etag resp)]),
     after (Requested (stats_request token full_name (rs !! full_name ≫= etag))) w).
Proof.
  intros Hrs Hresp Hst. unfold pass1_step, repos_of, lift. rewrite Hrs.
  unfold mbind at 1, M_bind at 1.
  by rewrite (bind_done _ _ _ _ _
                (get_contributor_stats_202 env _ _ _ _ _ Hresp Hst)).
Qed.

End ProcessRepoMore.

Lemma process_repo_only_own_entry_witness :
  ∃ rs', repos (stored stale_cache {[ "octo/a" := stale_entry ]} "octo/b" octo_b
                       None [busy_week] (1700000000 * second_us)) = Some rs' ∧
         rs' !! "octo/a" = Some stale_entry.
Proof.
  destruct (process_repo_only_own_entry (env_status 200) "octo/b" octo_b "t0"
              stale_cache (Some [busy_week]) None 200 stale_world
              (stored stale_cache {[ "octo/a" := stale_entry ]} "octo/b" octo_b
                      None [busy_week] (1700000000 * second_us))
              stale_world)
    as (_ & _ & _ & rs & rs' & Hrs & Hrs' & Hother); [by vm_compute|].
  exists rs'. split; [exact Hrs'|]. rewrite Hother by done.
  by injection Hrs as <-.
Defined.

Lemma ready_answer_is_stored_witness :
  _process_repo (env_status 200) "octo/b" octo_b "t0" stale_cache
                (Some [busy_week]) (Some "W/e2") 200 stale_world
  = (Done (mkCache
             (Some (<["octo/b" :=
                      mkEntry (Some "W/e2") true
                              (Some (weeks_dict_of [busy_week]))
                              (1700000000 * second_us)]>
                      {[ "octo/a" := stale_entry ]}))
             (Some 1699300000000000)), stale_world).
Proof.
  apply (ready_answer_is_stored (env_status 200) "octo/b" octo_b "t0"
           stale_cache {[ "octo/a" := stale_entry ]} [busy_week] (Some "W/e2")
           200 stale_world); [reflexivity|done|by right; left].
Defined.

Lemma unexpected_status_is_computing_witness :
  get_contributor_stats (env_status 204) "t0" "octo/a" None blank_world =
    (Done (None, Some "W/e2", 204),
     after (Requested (stats_request "t0" "octo/a" None)) blank_world).
Proof.
  destruct (unexpected_status_is_computing (env_status 204) "t0" "octo/a" None
              (sample_answer 204 "4000" [busy_week]) octo_a stale_cache
              blank_world) as [Hfetch _];
    [reflexivity|done|done|done|cbn; lia|].
  exact Hfetch.
Defined.

Lemma computing_is_queued_witness :
  pass1_step (env_status 202) ("octo/a", (octo_a, "t0", "personal"))
             (stale_cache, []) stale_world
  = (Done (stale_cache, [("octo/a", octo_a, "t0", Some "W/e2")]),
     after (Requested (stats_request "t0" "octo/a" (Some "W/e1"))) stale_world).
Proof.
  exact (computing_is_queued (env_status 202) "octo/a" octo_a "t0" "personal"
           stale_cache {[ "octo/a" := stale_entry ]} []
           (sample_answer 202 "4000" [busy_week]) stale_world
           eq_refl eq_refl eq_refl).
Defined.

(** ** The weeks dictionary of an entry *)

Section WeeksDict.

Lemma weeks_dict_of_snoc weeks wk :
  weeks_dict_of (weeks ++ [wk]) =
    <[Py.str (start_of_week wk) := bucket_of wk]> (weeks_dict_of weeks).
Proof. unfold weeks_dict_of. by rewrite foldl_app. Qed.

(** Every key [_process_repo] writes is the text of the week start of one
    of the weeks it was given, [int] reads it back as that week start, and
    the bucket under it holds that week's additions and deletions: the
    aggregator never finds a key it cannot read in an entry the script
    wrote. *)
Theorem stored_keys_read_back weeks key bucket :
  weeks_dict_of weeks !! key = Some bucket →
  ∃ wk, wk ∈ weeks ∧ key = Py.str (start_of_week wk) ∧
        Py.int key = Some (start_of_week wk) ∧ bucket = bucket_of wk.
Proof.
  induction weeks as [|wk weeks IH] using rev_ind; [done|].
  rewrite weeks_dict_of_snoc.
  destruct (decide (Py.str (start_of_week wk) = key)) as [<-|Hne].
  - rewrite lookup_insert_eq. intros [= <-]. exists wk.
    split; [apply elem_of_app; right; constructor|]. by rewrite int_str.
  - rewrite lookup_insert_ne by done. intros Hin.
    destruct (IH Hin) as (wk' & Hwk' & Hrest). exists wk'.
    split; [apply elem_of_app; by left|done].
Qed.

Lemma stored_keys_read_back_witness :
  ∃ wk, wk ∈ [busy_week] ∧ Py.int "1699833600" = Some (start_of_week wk).
Proof.
  destruct (stored_keys_read_back [busy_week] "1699833600"
              (mkWeek (Some 100) (Some 20))) as (wk & Hin & _ & Hint & _);
    [reflexivity|].
  exists wk. split; [exact Hin|exact Hint].
Defined.

(** Of several weeks with the same week start the last one is kept: a week
    after which no week of the list has its week start is found under the
    text of that week start. *)
Theorem stored_week_is_found before wk later :
  Forall (λ other, start_of_week other ≠ start_of_week wk) later →
  weeks_dict_of (before ++ wk :: later) !! Py.str (start_of_week wk)
    = Some (bucket_of wk).
Proof.
  induction later as [|last later IH] using rev_ind; intros Hlater.
  - by rewrite weeks_dict_of_snoc, lookup_insert_eq.
  - apply Forall_app in Hlater as [Hlater Hlast%Forall_inv].
    rewrite app_comm_cons, app_assoc, weeks_dict_of_snoc.
    rewrite lookup_insert_ne; [by apply IH|].
    intros Heq%str_inj. by apply Hlast.
Qed.

Lemma stored_week_is_found_witness :
  weeks_dict_of [zero_week; mkApiWeek (Some 1700438400) (Some 1) None; busy_week]
    !! "1700438400" = Some (mkWeek (Some 1) (Some 0)).
Proof.
  apply (stored_week_is_found [zero_week]
           (mkApiWeek (Some 1700438400) (Some 1) None) [busy_week]).
  by repeat constructor.
Defined.

End WeeksDict.

(** ** The quota check *)

Section RateLimit.

Context (env : Env).

(** Below the floor of 100 remaining requests the check sleeps once, for
    the whole seconds from now to the reset time of the answer (taken as 0
    when the answer has none), and for one second when that is less than
    one: the sleep is never zero or negative. *)
Theorem check_rate_limit_sleeps resp token_label remaining_text remaining
    reset_ts w :
  header_remaining resp = Some remaining_text →
  Py.int remaining_text = Some remaining →
  remaining < RATE_LIMIT_FLOOR →
  match header_reset resp with
  | Some reset_text => Py.int reset_text
  | None => Some 0
  end = Some reset_ts →
  let now := Z.quot (clock env (trace w)) second_us in
  let wait := Z.max (reset_ts - now) 1 in
  _check_rate_limit env resp token_label w = (Done (), after (Slept wait) w) ∧
  1 ≤ wait ∧
  (now < reset_ts → now + wait = reset_ts).
Proof.
  intros Hrem Hint Hlow Hreset now wait.
  split; [|subst wait; lia].
  unfold _check_rate_limit. rewrite Hrem.
  unfold lift at 1. rewrite (int_of_Some _ _ Hint).
  unfold mbind at 1, M_bind at 1. cbn match.
  assert (Hr : match header_reset resp with
               | Some reset => int_of reset
               | None => Done 0
               end = Done reset_ts).
  { destruct (header_reset resp); [by apply int_of_Some|by injection Hreset as <-]. }
  unfold lift. rewrite Hr. by rewrite (proj2 (Z.ltb_lt _ _) Hlow).
Qed.

(** With no remaining-requests header, or with 100 or more requests left,
    the check does nothing. *)
Theorem check_rate_limit_passes resp token_label w :
  header_remaining resp = None ∨
  (∃ remaining_text remaining,
     header_remaining resp = Some remaining_text ∧
     Py.int remaining_text = Some remaining ∧ RATE_LIMIT_FLOOR ≤ remaining) →
  _check_rate_limit env resp token_label w = (Done (), w).
Proof.
  unfold _check_rate_limit.
  intros [->|(text & remaining & -> & Hint & Hfloor)]; [done|].
  unfold lift. rewrite (int_of_Some _ _ Hint).
  unfold mbind, M_bind. cbn match.
  by rewrite (proj2 (Z.ltb_ge _ _) Hfloor).
Qed.

(** A remaining-requests header that is no integer makes the check raise
    [ValueError], and so does, below the floor, a reset header that is no
    integer; neither sleeps. *)
Theorem check_rate_limit_bad_header resp token_label w :
  (∃ remaining_text,
     header_remaining resp = Some remaining_text ∧
     (Py.int remaining_text = None ∨
      ∃ remaining reset_text,
        Py.int remaining_text = Some remaining ∧ remaining < RATE_LIMIT_FLOOR ∧
        header_reset resp = Some reset_text ∧ Py.int reset_text = None)) →
  _check_rate_limit env resp token_label w = (Raise ValueError, w).
Proof.
  unfold _check_rate_limit.
  intros (text & -> & [Hint|(remaining & reset & Hint & Hlow & -> & Hreset)]).
  - unfold lift, int_of. by rewrite Hint.
  - unfold lift at 1. rewrite (int_of_Some _ _ Hint).
    unfold mbind at 1, M_bind at 1. cbn match.
    unfold lift, int_of. rewrite Hreset.
    by rewrite (proj2 (Z.ltb_lt _ _) Hlow).
Qed.

End RateLimit.

Lemma check_rate_limit_sleeps_witness :
  _check_rate_limit (env_status 200) (sample_answer 200 "5" []) "octo/a"
                    blank_world
  = (Done (), after (Slept 3600) blank_world).
Proof.
  destruct (check_rate_limit_sleeps (env_status 200) (sample_answer 200 "5" [])
              "octo/a" "5" 5 1700003600 blank_world) as [Hrun _];
    [reflexivity|reflexivity|by vm_compute|reflexivity|].
  exact Hrun.
Defined.

Lemma check_rate_limit_passes_witness :
  _check_rate_limit (env_status 200) (sample_answer 200 "100" []) "octo/a"
                    blank_world = (Done (), blank_world).
Proof.
  apply (check_rate_limit_passes (env_status 200) (sample_answer 200 "100" [])
           "octo/a" blank_world).
  right. exists "100", 100. by vm_compute.
Defined.

Lemma check_rate_limit_bad_header_witness :
  _check_rate_limit (env_status 200) (sample_answer 200 "many" []) "octo/a"
                    blank_world = (Raise ValueError, blank_world).
Proof.
  apply (check_rate_limit_bad_header (env_status 200)
           (sample_answer 200 "many" []) "octo/a" blank_world).
  exists "many". split; [reflexivity|]. by left.
Defined.

(** ** The history walk as a whole *)

Lemma for_each_raise {A S} (l : list A) (body : A → S → Exc S) s e :
  for_each l body s = Raise e → ∃ x s', x ∈ l ∧ body x s' = Raise e.
Proof.
  revert s. induction l as [|x l IH]; intros s; [done|].
  cbn [for_each]. destruct (body x s) as [s'|e'] eqn:Hbody; cbn.
  - intros Hrest. destruct (IH _ Hrest) as (y & s'' & Hy & Hraise).
    exists y, s''. split; [by constructor|done].
  - intros [= ->]. exists x, s. split; [constructor|done].
Qed.

(** A line of the log raises nothing but [ValueError] (a timestamp line
    that [int] rejects) and [OutOfRange] (a timestamp past year 9999). *)
Lemma numstat_line_raises line st e :
  numstat_line line st = Raise e → e = ValueError ∨ e = OutOfRange.
Proof.
  unfold numstat_line. destruct st as [weekly current_ts].
  case_bool_decide; [done|].
  destruct (Py.isdigit _).
  { unfold int_of. destruct (Py.int _); cbn; [done|]. intros [= <-]. by left. }
  destruct (Py.split tab _) as [|p0 [|p1 [|p2 rest]]]; try done.
  destruct current_ts as [ts|]; [|done].
  destruct (change_count p0) as [adds|e0] eqn:H0; cbn.
  - destruct (change_count p1) as [dels|e1] eqn:H1; cbn.
    + destruct (ts >? MAX_TIMESTAMP); [|done]. intros [= <-]. by right.
    + by rewrite (change_count_raises _ _ H1).
  - by rewrite (change_count_raises _ _ H0).
Qed.

Lemma parse_numstat_raises stdout e :
  parse_numstat stdout = Raise e → e = ValueError ∨ e = OutOfRange.
Proof.
  unfold parse_numstat.
  destruct (for_each _ _ _) as [st|e'] eqn:Hloop; cbn; [done|].
  intros [= ->]. destruct (for_each_raise _ _ _ _ Hloop) as (x & s' & _ & Hx).
  by apply numstat_line_raises in Hx.
Qed.

Section CloneAndCount.

Context (env : Env).

(** [clone_and_count], case by case on what git does. *)
Lemma clone_and_count_cases token name w :
  let tr1 := Mkdtemp :: trace w in
  let tr2 := Ran (GitCloneBare token name) :: tr1 in
  let tr3 := Ran (GitLogNumstat (GITHUB_USER env)) :: tr2 in
  clone_and_count env token name w =
    match git env tr1 (GitCloneBare token name) with
    | Completed _ =>
        match git env tr2 (GitLogNumstat (GITHUB_USER env)) with
        | Completed stdout =>
            (parse_numstat stdout,
             mkWorld (Rmtree :: tr3) (cache_file w) (svg_file w))
        | _ => (Done [], mkWorld (Rmtree :: tr3) (cache_file w) (svg_file w))
        end
    | _ => (Done [], mkWorld (Rmtree :: tr2) (cache_file w) (svg_file w))
    end.
Proof.
  cbv zeta.
  unfold clone_and_count, try_finally, try_except, subprocess_run, history,
    emit, after, raise, lift, mbind, M_bind, mret, M_ret. cbn.
  destruct (git env _ (GitCloneBare token name)); cbn; [|done..].
  destruct (git env _ (GitLogNumstat _)); cbn; [|done..].
  destruct (parse_numstat stdout0) as [weeks|e] eqn:Hparse; cbn; [done|].
  by destruct (parse_numstat_raises _ _ Hparse) as [-> | ->].
Qed.

(** The temporary directory is removed on every way out of
    [clone_and_count], an exception of the parse included: the last effect
    is always the removal, before it come the directory's creation and one
    or two git runs, and the cache file and the card are not touched. *)
Theorem clone_and_count_cleans_up token name w :
  ∃ ran,
    trace (clone_and_count env token name w).2
      = Rmtree :: ran ++ Mkdtemp :: trace w ∧
    (ran = [Ran (GitCloneBare token name)] ∨
     ran = [Ran (GitLogNumstat (GITHUB_USER env));
            Ran (GitCloneBare token name)]) ∧
    cache_file (clone_and_count env token name w).2 = cache_file w ∧
    svg_file (clone_and_count env token name w).2 = svg_file w.
Proof.
  rewrite clone_and_count_cases. cbv zeta.
  destruct (git env _ (GitCloneBare token name));
    [destruct (git env _ (GitLogNumstat _))|..]; cbn.
  1-3: exists [Ran (GitLogNumstat (GITHUB_USER env));
               Ran (GitCloneBare token name)]; by eauto.
  all: exists [Ran (GitCloneBare token name)]; by eauto.
Qed.

(** When the clone times out or fails, the walk returns the empty list
    without running [git log]; when the clone succeeds and [git log] times
    out or fails, it returns the empty list too. *)
Theorem clone_and_count_failure_is_empty token name w :
  let tr1 := Mkdtemp :: trace w in
  let tr2 := Ran (GitCloneBare token name) :: tr1 in
  let tr3 := Ran (GitLogNumstat (GITHUB_USER env)) :: tr2 in
  (git env tr1 (GitCloneBare token name) = TimeoutExpired ∨
   git env tr1 (GitCloneBare token name) = CalledProcessError →
   clone_and_count env token name w =
     (Done [], mkWorld (Rmtree :: tr2) (cache_file w) (svg_file w))) ∧
  ((∃ out, git env tr1 (GitCloneBare token name) = Completed out) →
   git env tr2 (GitLogNumstat (GITHUB_USER env)) = TimeoutExpired ∨
   git env tr2 (GitLogNumstat (GITHUB_USER env)) = CalledProcessError →
   clone_and_count env token name w =
     (Done [], mkWorld (Rmtree :: tr3) (cache_file w) (svg_file w))).
Proof.
  cbv zeta. rewrite clone_and_count_cases. cbv zeta. split.
  - by intros [-> | ->].
  - by intros [out ->] [-> | ->].
Qed.

(** When both git runs succeed, the walk returns what the parse of the log
    returns, and raises what the parse raises: the handlers of
    [clone_and_count] catch no exception of the parse. *)
Theorem clone_and_count_success token name out stdout w :
  let tr1 := Mkdtemp :: trace w in
  let tr2 := Ran (GitCloneBare token name) :: tr1 in
  let tr3 := Ran (GitLogNumstat (GITHUB_USER env)) :: tr2 in
  git env tr1 (GitCloneBare token name) = Completed out →
  git env tr2 (GitLogNumstat (GITHUB_USER env)) = Completed stdout →
  clone_and_count env token name w =
    (parse_numstat stdout, mkWorld (Rmtree :: tr3) (cache_file w) (svg_file w)).
Proof.
  cbv zeta. intros Hclone Hlog. rewrite clone_and_count_cases. cbv zeta.
  by rewrite Hclone, Hlog.
Qed.

End CloneAndCount.

Lemma clone_and_count_success_witness :
  (clone_and_count (sample_env (λ _, sample_answer 200 "4000" [])
                               (Completed sample_log))
                   "t0" "octo/a" blank_world).1
  = Done [mkApiWeek (Some 1699833600) (Some 5) (Some 3)].
Proof.
  rewrite (clone_and_count_success
             (sample_env (λ _, sample_answer 200 "4000" []) (Completed sample_log))
             "t0" "octo/a" "" sample_log blank_world eq_refl eq_refl).
  by vm_compute.
Defined.

Lemma clone_and_count_failure_is_empty_witness :
  clone_and_count (env_status 200) "t0" "octo/a" blank_world =
    (Done [],
     mkWorld [Rmtree; Ran (GitLogNumstat "ctf05"); Ran (GitCloneBare "t0" "octo/a");
              Mkdtemp] None None).
Proof.
  destruct (clone_and_count_failure_is_empty (env_status 200) "t0" "octo/a"
              blank_world) as [_ Hlog].
  apply Hlog; [by exists ""|by left].
Defined.

Section CloneAndCountRaises.

Context (env : Env).

(** [clone_and_count] raises only when both git runs succeeded and the
    parse of the log raises, and then only [ValueError] or [OutOfRange]. *)
Theorem clone_and_count_raises token name w e :
  (clone_and_count env token name w).1 = Raise e →
  (e = ValueError ∨ e = OutOfRange) ∧
  ∃ out stdout,
    git env (Mkdtemp :: trace w) (GitCloneBare token name) = Completed out ∧
    git env (Ran (GitCloneBare token name) :: Mkdtemp :: trace w)
        (GitLogNumstat (GITHUB_USER env)) = Completed stdout ∧
    parse_numstat stdout = Raise e.
Proof.
  rewrite clone_and_count_cases. cbv zeta.
  destruct (git env _ (GitCloneBare token name)) as [out| |]; [|done..].
  destruct (git env _ (GitLogNumstat _)) as [stdout| |]; [|done..].
  cbn. intros Hparse. split; [by apply parse_numstat_raises in Hparse|].
  by exists out, stdout.
Qed.

End CloneAndCountRaises.

Lemma clone_and_count_raises_witness :
  (clone_and_count (sample_env (λ _, sample_answer 200 "4000" [])
                               (Completed late_log))
                   "t0" "octo/a" blank_world).1 = Raise OutOfRange ∧
  parse_numstat late_log = Raise OutOfRange.
Proof.
  assert (Hrun : (clone_and_count
                    (sample_env (λ _, sample_answer 200 "4000" [])
                                (Completed late_log))
                    "t0" "octo/a" blank_world).1 = Raise OutOfRange)
    by (by vm_compute).
  split; [exact Hrun|].
  destruct (clone_and_count_raises _ _ _ _ _ Hrun)
    as (_ & out & stdout & _ & Hlog & Hparse).
  cbn in Hlog. by injection Hlog as <-.
Defined.

(** ** What the parse returns *)

Section ParseShape.

Lemma for_each_invariant {A S} (P : S → Prop) (l : list A)
    (body : A → S → Exc S) s s' :
  (∀ x t t', body x t = Done t' → P t → P t') →
  P s → for_each l body s = Done s' → P s'.
Proof.
  intros Hbody. revert s. induction l as [|x l IH]; intros s Hs.
  - by intros [= <-].
  - cbn [for_each]. destruct (body x s) as [t|e] eqn:Hx; cbn; [|done].
    apply IH. by eapply Hbody.
Qed.

Lemma numstat_line_mondays line st st' :
  numstat_line line st = Done st' →
  map_Forall (λ k _, on_monday k) st.1 → map_Forall (λ k _, on_monday k) st'.1.
Proof.
  unfold numstat_line. destruct st as [weekly current_ts].
  case_bool_decide; [by intros [= <-]|].
  destruct (Py.isdigit _).
  { destruct (int_of _); cbn; [|done]. by intros [= <-]. }
  destruct (Py.split tab _) as [|p0 [|p1 [|p2 rest]]]; try by intros [= <-].
  destruct current_ts as [ts|]; [|by intros [= <-]].
  destruct (change_count p0) as [adds|e0] eqn:H0; cbn.
  2: { rewrite (change_count_raises _ _ H0). by intros [= <-]. }
  destruct (change_count p1) as [dels|e1] eqn:H1; cbn.
  2: { rewrite (change_count_raises _ _ H1). by intros [= <-]. }
  destruct (ts >? MAX_TIMESTAMP); [done|]. intros [= <-] Hall. cbn in *.
  intros k v Hk. apply lookup_alter_Some in Hk as [(<- & _)|[_ Hk]].
  - apply (proj2 (week_ts_of_monday ts)).
  - destruct (weekly !! week_ts_of ts); [by eapply Hall|].
    apply lookup_insert_Some in Hk as [[<- _]|[_ Hk]];
      [apply (proj2 (week_ts_of_monday ts))|by eapply Hall].
Qed.

#[local] Instance by_week_total {A} : Total (@by_week A).
Proof. intros x y. unfold by_week. lia. Qed.

#[local] Instance by_week_trans {A} : Transitive (@by_week A).
Proof. intros x y z. unfold by_week. lia. Qed.

(** The sorted items of a dictionary are in strictly increasing order of
    their keys. *)
Lemma sorted_items_increasing {A} (m : gmap Z A) :
  StronglySorted (λ x y, x.1 < y.1) (merge_sort by_week (map_to_list m)).
Proof.
  pose proof (StronglySorted_merge_sort by_week (map_to_list m)) as Hsorted.
  assert (Hnodup : NoDup (merge_sort by_week (map_to_list m)).*1).
  { rewrite merge_sort_Permutation. apply NoDup_fst_map_to_list. }
  induction Hsorted as [|x l Hl IH Hx]; [constructor|].
  cbn in Hnodup. apply NoDup_cons in Hnodup as [Hnotin Hnodup].
  constructor; [by apply IH|].
  apply Forall_forall. intros y Hy.
  pose proof (proj1 (Forall_forall _ _) Hx y Hy) as Hle. unfold by_week in Hle.
  assert (x.1 ≠ y.1); [|lia].
  intros Heq. apply Hnotin. rewrite Heq. by apply list_elem_of_fmap_2.
Qed.

(** The weeks the parse returns come in strictly increasing order of week
    start, so no week start comes twice; every one of them has its three
    fields, and its week start is a Monday at 00:00 UTC. *)
Theorem parse_numstat_weeks stdout weeks :
  parse_numstat stdout = Done weeks →
  StronglySorted (λ x y, start_of_week x < start_of_week y) weeks ∧
  Forall (λ wk, ∃ ts a d, wk = mkApiWeek (Some ts) (Some a) (Some d) ∧
                          on_monday ts) weeks.
Proof.
  unfold parse_numstat.
  destruct (for_each _ _ _) as [[weekly current_ts]|e] eqn:Hloop; cbn; [|done].
  intros [= <-]. unfold weeks_of. split.
  - eapply StronglySorted_fmap; [|apply sorted_items_increasing].
    by intros [ts1 [a1 d1]] [ts2 [a2 d2]].
  - assert (Hmon : map_Forall (λ k _, on_monday k) weekly).
    { apply (for_each_invariant (λ st, map_Forall (λ k _, on_monday k) st.1)
               _ _ _ _ numstat_line_mondays) in Hloop; [done|].
      apply map_Forall_empty. }
    apply Forall_fmap, Forall_forall. intros [ts [a d]] Hin.
    rewrite merge_sort_Permutation in Hin.
    apply elem_of_map_to_list in Hin. cbn. exists ts, a, d.
    split; [done|]. by eapply Hmon.
Qed.

Lemma parse_numstat_weeks_witness :
  Forall (λ wk, ∃ ts a d, wk = mkApiWeek (Some ts) (Some a) (Some d) ∧
                          on_monday ts)
         [mkApiWeek (Some 1699833600) (Some 5) (Some 3)].
Proof.
  by destruct (parse_numstat_weeks sample_log
                 [mkApiWeek (Some 1699833600) (Some 5) (Some 3)])
       as [_ Hall]; [by vm_compute|].
Defined.

End ParseShape.

Section ParseEdges.

Lemma numstat_line_before_timestamp line weekly :
  Py.isdigit (Py.strip line) = false →
  numstat_line line (weekly, None) = Done (weekly, None).
Proof.
  intros Hdigit. unfold numstat_line. case_bool_decide; [done|].
  rewrite Hdigit. by destruct (Py.split tab _) as [|p0 [|p1 [|p2 rest]]].
Qed.

(** A log without a timestamp line (one that is all digits once stripped),
    the empty log included, yields no weeks and no error: entries that come
    before any timestamp are dropped. *)
Theorem log_without_timestamp_is_empty stdout :
  Forall (λ line, Py.isdigit (Py.strip line) = false) (Py.splitlines stdout) →
  parse_numstat stdout = Done [].
Proof.
  intros Hlines. unfold parse_numstat.
  assert (Hloop : ∀ weekly,
    for_each (Py.splitlines stdout) numstat_line (weekly, None)
      = Done (weekly, None)).
  { induction Hlines as [|line lines Hline _ IH]; intros weekly; [done|].
    cbn [for_each]. rewrite (numstat_line_before_timestamp _ _ Hline). apply IH. }
  by rewrite Hloop.
Qed.

Lemma log_without_timestamp_is_empty_witness :
  parse_numstat ("5" +:+ tab_text +:+ "3" +:+ tab_text +:+ "a.py") = Done [].
Proof.
  apply log_without_timestamp_is_empty. by repeat constructor.
Defined.

(** The week of a timestamp is the only Monday, 00:00 UTC, that is at most
    seven days before it: two commits are counted in the same bucket
    exactly when they fall in the same Monday-to-Sunday week. *)
Theorem week_ts_of_unique ts monday :
  on_monday monday →
  monday ≤ ts < monday + 7 * 86400 →
  week_ts_of ts = monday.
Proof.
  intros Hmon Hin.
  destruct (week_ts_of_monday ts) as [Hweek Hon]. unfold on_monday in Hmon.
  revert Hon Hmon Hweek Hin. generalize (week_ts_of ts). intros week.
  intros. Z.to_euclidean_division_equations. lia.
Qed.

Lemma week_ts_of_unique_witness : week_ts_of 1700000000 = 1699833600.
Proof.
  apply week_ts_of_unique; [reflexivity|lia].
Defined.

End ParseEdges.

(** ** Picking the user's weeks out of a ready answer *)

Section WeeksForUser.

Context (env : Env).

Lemma weeks_for_user_skip before rest :
  Forall (other_user env) before →
  weeks_for_user env (before ++ rest) = weeks_for_user env rest.
Proof.
  induction 1 as [|contrib before (login & Hlogin & Hne) _ IH]; [done|].
  cbn [app weeks_for_user]. rewrite Hlogin. cbn.
  by rewrite bool_decide_eq_false_2.
Qed.

(** The weeks returned are those of the first contributor whose login is
    the user's up to letter case (the empty list when that contributor has
    no weeks field); when no contributor has the user's login the result
    is the empty list, not an absence of data. *)
Theorem weeks_for_user_first_match before contrib later login :
  Forall (other_user env) before →
  login_of contrib = Done login →
  Py.lower login = Py.lower (GITHUB_USER env) →
  weeks_for_user env (before ++ contrib :: later)
    = Done (default [] (contributor_weeks contrib)) ∧
  weeks_for_user env before = Done [].
Proof.
  intros Hbefore Hlogin Hsame. split.
  - rewrite (weeks_for_user_skip _ _ Hbefore). cbn [weeks_for_user].
    rewrite Hlogin. cbn. by rewrite bool_decide_eq_true_2.
  - rewrite <- (app_nil_r before). by rewrite (weeks_for_user_skip _ _ Hbefore).
Qed.


End WeeksForUser.

Lemma weeks_for_user_first_match_witness :
  weeks_for_user (env_status 200)
    [mkContributor (AuthorObject (Some "octocat")) (Some [zero_week]);
     mkContributor (AuthorObject (Some "CTF05")) (Some [busy_week]);
     mkContributor AuthorNull None]
  = Done [busy_week].
Proof.
  destruct (weeks_for_user_first_match (env_status 200)
              [mkContributor (AuthorObject (Some "octocat")) (Some [zero_week])]
              (mkContributor (AuthorObject (Some "CTF05")) (Some [busy_week]))
              [mkContributor AuthorNull None] "CTF05") as [Hfound _];
    [|reflexivity|reflexivity|exact Hfound].
  repeat constructor. by exists "octocat".
Defined.


(** ** Start of the run *)

(** With no token configured (every token empty), [main] exits with status
    1 before it reads the cache, lists a repository or writes a file. *)
Theorem main_without_tokens env w :
  Forall (λ lt, lt.2 = "") (TOKENS env) →
  main env w = (Raise (SystemExit 1), w).
Proof.
  intros Hnone. unfold main.
  assert (filter (λ lt : string * string, lt.2 ≠ "") (TOKENS env) = []) as ->;
    [|done].
  induction Hnone as [|lt tokens Hlt _ IH]; [done|].
  rewrite filter_cons. by destruct (decide _).
Qed.

Lemma main_without_tokens_witness :
  main (mkEnv "ctf05" [("personal", ""); ("LOME-AI", "")] (λ _, 0)
              (λ _ _, Unreachable) (λ _ _, Done []) (λ _ _, TimeoutExpired))
       stale_world
  = (Raise (SystemExit 1), stale_world).
Proof.
  apply main_without_tokens. by repeat constructor.
Defined.

(** ** The aggregator on any cache *)

Section AggregatorMore.

Lemma scan_weeks_raises_only bounds weeks res e :
  scan_weeks bounds weeks res = Raise e → e = ValueError.
Proof.
  unfold scan_weeks. intros Hloop.
  destruct (for_each_raise _ _ _ _ Hloop) as ([key week] & res' & _ & Hbody).
  unfold int_of in Hbody. destruct (Py.int key); cbn in Hbody; [done|].
  by injection Hbody as <-.
Qed.

Lemma scan_weeks_bad_key bounds weeks res :
  Exists (λ kw, Py.int kw.1 = None) weeks →
  scan_weeks bounds weeks res = Raise ValueError.
Proof.
  unfold scan_weeks. intros Hbad. revert res.
  induction weeks as [|[key week] weeks IH]; intros res;
    [by apply Exists_nil in Hbad|].
  cbn [for_each].
  destruct (Py.int key) as [ts|] eqn:Hkey.
  - rewrite (int_of_Some _ _ Hkey). cbn [mbind Exc_bind mret Exc_ret].
    apply IH. apply Exists_cons in Hbad as [Hhere|Hlater]; [|done].
    cbn in Hhere. congruence.
  - assert (int_of key = Raise ValueError) as ->; [|done].
    unfold int_of. by rewrite Hkey.
Qed.

Lemma repos_loop_bad_key bounds (rs : list (string * RepoEntry)) res :
  Exists (λ kw, Py.int kw.1 = None)
         (rs ≫= λ '(_, repo_data), map_to_list (default ∅ (weeks repo_data))) →
  for_each rs
    (λ '(repo_name, repo_data) res,
       let weeks := default ∅ (weeks repo_data) in
       scan_weeks bounds (map_to_list weeks) res) res = Raise ValueError.
Proof.
  revert res. induction rs as [|[name rd] rs IH]; intros res Hbad;
    [by apply Exists_nil in Hbad|].
  rewrite bind_cons in Hbad. apply Exists_app in Hbad as [Hhere|Hlater].
  - cbn [for_each]. cbv zeta. by rewrite (scan_weeks_bad_key _ _ _ Hhere).
  - cbn [for_each]. cbv zeta.
    destruct (scan_weeks bounds _ res) as [res1|e] eqn:Hscan; cbn.
    + by apply IH.
    + by rewrite (scan_weeks_raises_only _ _ _ _ Hscan).
Qed.

(** The aggregator returns exactly when every week key of the cache reads
    as an integer; one key that does not makes it raise [ValueError], and
    nothing else makes it raise. *)
Theorem compute_timeframes_returns_iff now cache :
  (keys_are_integers cache → ∃ stats, compute_timeframes now cache = Done stats) ∧
  (¬ keys_are_integers cache → compute_timeframes now cache = Raise ValueError).
Proof.
  split.
  - intros Hkeys.
    destruct (compute_timeframes_frame now cache "All Time" 0)
      as (stats & Hrun & _); [set_solver|done|]. by exists stats.
  - intros Hbad. unfold keys_are_integers in Hbad.
    apply not_Forall_Exists in Hbad; [|apply _].
    unfold compute_timeframes. cbv zeta.
    rewrite repos_loop_bad_key; [done|].
    eapply Exists_impl; [exact Hbad|]. intros kw Hnot. cbn in Hnot.
    destruct (Py.int kw.1); [|done]. by destruct Hnot.
Qed.

Lemma count_week_none week_ts week bounds res label :
  res !! label = None → count_week week_ts week bounds res !! label = None.
Proof.
  intros Hnone. rewrite count_week_lookup, Hnone.
  induction bounds as [|[l b] bounds IH]; [done|].
  cbn [foldl]. by destruct (_ && _).
Qed.

Lemma loops_keep_none now (rs : list (string * RepoEntry)) res res' label :
  for_each rs
    (λ '(repo_name, repo_data) res,
       let weeks := default ∅ (weeks repo_data) in
       scan_weeks (boundaries now) (map_to_list weeks) res) res = Done res' →
  res !! label = None → res' !! label = None.
Proof.
  intros Hloop Hnone.
  eapply (for_each_invariant (λ r : gmap string Frame, r !! label = None));
    [|exact Hnone|exact Hloop].
  intros [name rd] t t' Hscan Ht. cbv zeta in Hscan. unfold scan_weeks in Hscan.
  eapply (for_each_invariant (λ r : gmap string Frame, r !! label = None));
    [|exact Ht|exact Hscan].
  intros [key week] u u' Hbody Hu.
  destruct (Py.int key) as [ts|] eqn:Hkey.
  - rewrite (int_of_Some _ _ Hkey) in Hbody.
    change (Done (count_week ts week (boundaries now) u) = Done u') in Hbody.
    assert (u' = count_week ts week (boundaries now) u) as -> by congruence.
    by apply count_week_none.
  - unfold int_of in Hbody. by rewrite Hkey in Hbody.
Qed.

(** The aggregate in closed form.  For a cache whose week keys are
    integers the result has the four windows and no other key; the frame of
    a window sums the additions and the deletions of the buckets whose week
    start is at or after the window's lower bound, and its total is their
    sum.  The bound is 0 for 'All Time' and otherwise what [int] makes of
    the float [timestamp()] of now minus the days: the whole seconds of
    that instant while it lies within 2^33 seconds of the epoch (until year
    2242), and possibly one second more once the float no longer tells the
    last microsecond from the next second.  A bucket filed under [str(ts)]
    counts in a window exactly when [ts] is at least the bound, a week that
    starts at the bound included. *)
Theorem window_frames now cache :
  keys_are_integers cache →
  ∃ stats,
    compute_timeframes now cache = Done stats ∧
    (∀ label days, (label, days) ∈ TIME_FRAMES →
       stats !! label =
         Some (mkFrame (sum_from (start_of now days) adds (buckets cache))
                       (sum_from (start_of now days) dels (buckets cache))
                       (Some (sum_from (start_of now days) adds (buckets cache) +
                              sum_from (start_of now days) dels (buckets cache))))) ∧
    (∀ label, label ∉ TIME_FRAMES.*1 → stats !! label = None) ∧
    (∀ start_ts ts, starts_from start_ts (Py.str ts) = true ↔ start_ts ≤ ts) ∧
    start_of now 0 = 0 ∧
    (∀ days, days ≠ 0 →
       Z.abs (now - days * day_us) < 2 ^ 33 * second_us →
       start_of now days = Z.quot (now - days * day_us) second_us).
Proof.
  intros Hkeys.
  destruct (compute_timeframes_frame now cache "All Time" 0)
    as (stats & Hrun & _); [set_solver|done|].
  exists stats. split; [done|]. split; [|split; [|split; [|split; [done|]]]].
  - intros label days Hin.
    destruct (compute_timeframes_frame now cache label days Hin Hkeys)
      as (stats' & Hrun' & Hframe).
    rewrite Hrun in Hrun'. by injection Hrun' as <-.
  - intros label Hnot. unfold compute_timeframes in Hrun. cbv zeta in Hrun.
    destruct (for_each _ _ _) as [res|e] eqn:Hloop; cbn in Hrun; [|done].
    injection Hrun as <-.
    assert (Hres : res !! label = None).
    { eapply loops_keep_none; [exact Hloop|].
      apply not_elem_of_list_to_map_1. intros Hin. apply Hnot.
      by rewrite <- list_fmap_compose in Hin. }
    unfold TIME_FRAMES in *. cbn [foldl].
    rewrite !lookup_alter_ne; [done|intros <-; apply Hnot; set_solver..].
  - intros start_ts ts. unfold starts_from. rewrite int_str.
    rewrite Z.geb_leb. apply Z.leb_le.
  - intros days Hdays Hnear. unfold start_of.
    destruct (Z.eqb_spec days 0); [done|]. by apply days_before_exact.
Qed.

End AggregatorMore.

Lemma window_frames_witness :
  ∃ stats,
    compute_timeframes far_now far_cache = Done stats ∧
    start_of far_now 7 = 32503680001 ∧
    stats !! "Last Week" = Some (mkFrame 100 1000 (Some 1100)) ∧
    stats !! "All Time" = Some (mkFrame 101 1010 (Some 1111)).
Proof.
  destruct (window_frames far_now far_cache)
    as (stats & Hrun & Hframes & _).
  - unfold keys_are_integers. refine (bool_decide_unpack _ _). by vm_compute.
  - exists stats. split; [exact Hrun|]. split; [by vm_compute|]. split.
    + assert (Hin : ("Last Week", 7) ∈ TIME_FRAMES) by (by repeat constructor).
      rewrite (Hframes "Last Week" 7 Hin). by vm_compute.
    + assert (Hin : ("All Time", 0) ∈ TIME_FRAMES) by (by repeat constructor).
      rewrite (Hframes "All Time" 0 Hin). by vm_compute.
Defined.

(** ** A run in which nothing changed *)

Section QuietRun.

Context (env : Env).

Hypothesis not_modified :
  ∀ tr rq, ∃ resp, remote env tr rq = Answered resp ∧ status_code resp = 304.




End QuietRun.


(** ** Discovery *)

Section Discovery.

Context (env : Env).

Lemma for_eachM_app {A S} (l1 l2 : list A) (body : A → S → M S) s w :
  for_eachM (l1 ++ l2) body s w =
    match for_eachM l1 body s w with
    | (Done s1, w1) => for_eachM l2 body s1 w1
    | (Raise e, w1) => (Raise e, w1)
    end.
Proof.
  revert s w. induction l1 as [|x l1 IH]; intros s w; [done|].
  cbn [app for_eachM]. unfold mbind, M_bind.
  destruct (body x s w) as [[s1|e] w1]; [apply IH|done].
Qed.

Lemma for_eachM_invariant {A S} (P : S → Prop) (l : list A)
    (body : A → S → M S) s w s' w' :
  (∀ x t v t' v', x ∈ l → body x t v = (Done t', v') → P t → P t') →
  P s → for_eachM l body s w = (Done s', w') → P s'.
Proof.
  revert s w. induction l as [|x l IH]; intros s w Hbody Hs.
  - by intros [= <- <-].
  - cbn [for_eachM]. unfold mbind, M_bind.
    destruct (body x s w) as [[t|e] v] eqn:Hx; [|done].
    apply IH; [|by eapply Hbody; [constructor|exact Hx|]].
    intros y ? ? ? ? Hy. apply Hbody. by constructor.
Qed.

Lemma register_grows token label all_repos repos :
  all_repos ⊆ register token label all_repos repos.
Proof.
  unfold register. revert all_repos.
  induction repos as [|repo repos IH]; intros all_repos; [done|].
  cbn [foldl]. etrans; [|apply IH].
  destruct (all_repos !! full_name repo) eqn:Hfree; [done|].
  by apply insert_subseteq.
Qed.

Lemma register_entries token label all_repos repos name repo t l :
  register token label all_repos repos !! name = Some (repo, t, l) →
  all_repos !! name = Some (repo, t, l) ∨
  (full_name repo = name ∧ t = token ∧ l = label ∧ repo ∈ repos).
Proof.
  unfold register. revert all_repos.
  induction repos as [|r repos IH]; intros all_repos; [by left|].
  cbn [foldl]. intros Hin. apply IH in Hin as [Hin|(? & ? & ? & ?)].
  - destruct (all_repos !! full_name r) eqn:Hfree; [by left|].
    apply lookup_insert_Some in Hin as [[<- [= <- <- <-]]|[_ Hin]]; [|by left].
    right. repeat split. constructor.
  - right. repeat split; [done..|]. by constructor.
Qed.

(** One turn of the discovery loop, by the outcome of the listing. *)
Lemma discover_from_cons label token rest (all_repos : gmap string Found) w :
  discover_from env ((label, token) :: rest) all_repos w =
    match listing env (trace w) token with
    | Done repos =>
        discover_from env rest (register token label all_repos repos)
                      (after (Listed token) w)
    | Raise (HTTPError status) =>
        discover_from env rest all_repos (after (Listed token) w)
    | Raise e => (Raise e, after (Listed token) w)
    end.
Proof.
  unfold discover_from. cbn [for_eachM].
  unfold try_except, list_user_repos, history, emit, lift, mbind, M_bind,
    mret, M_ret. cbn.
  destruct (listing env (trace w) token) as [repos|e]; [done|].
  by destruct e.
Qed.

Lemma discover_from_grows tokens all_repos w all w' :
  discover_from env tokens all_repos w = (Done all, w') → all_repos ⊆ all.
Proof.
  revert all_repos w. induction tokens as [|[label token] tokens IH];
    intros all_repos w.
  - by intros [= <- <-].
  - rewrite discover_from_cons.
    destruct (listing env (trace w) token) as [repos|e].
    + intros Hrest%IH. etrans; [apply register_grows|done].
    + destruct e; try done. apply IH.
Qed.

Lemma discover_from_app pre post all_repos w :
  discover_from env (pre ++ post) all_repos w =
    match discover_from env pre all_repos w with
    | (Done all1, w1) => discover_from env post all1 w1
    | (Raise e, w1) => (Raise e, w1)
    end.
Proof. apply for_eachM_app. Qed.

(** First seen wins: what the first tokens have registered is found
    unchanged, under the same token, in the result of the discovery over
    those tokens followed by any others. *)
Theorem discover_first_wins pre post w all1 w1 all w' :
  discover env pre w = (Done all1, w1) →
  discover env (pre ++ post) w = (Done all, w') →
  ∀ name found, all1 !! name = Some found → all !! name = Some found.
Proof.
  change (discover env) with (λ tokens, discover_from env tokens ∅). cbv beta.
  intros Hpre Hall. rewrite discover_from_app, Hpre in Hall.
  apply discover_from_grows in Hall.
  intros name found Hfound. by eapply lookup_weaken.
Qed.

(** Every repository of the result is filed under its own full name and
    comes with one of the tokens the discovery was given, and its label. *)
Theorem discover_entries tokens w all w' name repo token label :
  discover env tokens w = (Done all, w') →
  all !! name = Some (repo, token, label) →
  full_name repo = name ∧ (label, token) ∈ tokens.
Proof.
  change (discover env tokens) with (discover_from env tokens ∅).
  assert (Hgen : ∀ all_repos v,
    (∀ n r t l, all_repos !! n = Some (r, t, l) →
                full_name r = n ∧ (l, t) ∈ tokens) →
    ∀ done_, (∀ x, x ∈ done_ → x ∈ tokens) →
    discover_from env done_ all_repos v = (Done all, w') →
    ∀ n r t l, all !! n = Some (r, t, l) → full_name r = n ∧ (l, t) ∈ tokens).
  { intros all_repos v Hinv done_. revert all_repos v Hinv.
    induction done_ as [|[l0 t0] done_ IH]; intros all_repos v Hinv Hsub.
    - by intros [= <- <-].
    - rewrite discover_from_cons.
      assert (Hrest : ∀ x, x ∈ done_ → x ∈ tokens)
        by (intros x Hx; apply Hsub; by constructor).
      destruct (listing env (trace v) t0) as [repos|e].
      + apply IH; [|done]. intros n r t l Hreg.
        apply register_entries in Hreg as [Hold|(? & -> & -> & _)];
          [by apply Hinv|]. split; [done|]. apply Hsub. constructor.
      + destruct e; try done. by apply IH. }
  intros Hrun Hfound. by eapply (Hgen ∅ w); [| |exact Hrun|exact Hfound].
Qed.

(** A listing that fails with an HTTP error costs its token only: the
    discovery goes on with the next token as if the failed one had not
    been configured, apart from the request made. *)
Theorem discover_skips_http_error label token rest status w :
  listing env (trace w) token = Raise (HTTPError status) →
  discover env ((label, token) :: rest) w =
    discover env rest (after (Listed token) w).
Proof.
  change (discover env) with (λ tokens, discover_from env tokens ∅). cbv beta.
  intros Hfail. by rewrite discover_from_cons, Hfail.
Qed.


End Discovery.

Lemma discover_first_wins_witness :
  register "t1" "LOME-AI" (register "t0" "personal" ∅ sample_repos) sample_repos
    !! "octo/a" = Some (octo_a, "t0", "personal").
Proof.
  apply (discover_first_wins (env_status 200) [("personal", "t0")]
           [("LOME-AI", "t1")] blank_world
           (register "t0" "personal" ∅ sample_repos)
           (after (Listed "t0") blank_world)
           (register "t1" "LOME-AI" (register "t0" "personal" ∅ sample_repos)
                     sample_repos)
           (after (Listed "t1") (after (Listed "t0") blank_world)));
    reflexivity.
Defined.

Lemma discover_entries_witness :
  full_name octo_a = "octo/a" ∧
  ("personal", "t0") ∈ [("personal", "t0"); ("LOME-AI", "t1")].
Proof.
  apply (discover_entries (env_status 200)
           [("personal", "t0"); ("LOME-AI", "t1")] blank_world
           (register "t1" "LOME-AI" (register "t0" "personal" ∅ sample_repos)
                     sample_repos)
           (after (Listed "t1") (after (Listed "t0") blank_world))
           "octo/a" octo_a "t0" "personal"); reflexivity.
Defined.

Lemma discover_skips_http_error_witness :
  discover (env_listing_fails (HTTPError 401))
           [("personal", "t0"); ("LOME-AI", "t1")] blank_world
  = (Done {[ "octo/a" := (octo_a, "t1", "LOME-AI") ]},
     after (Listed "t1") (after (Listed "t0") blank_world)).
Proof.
  rewrite (discover_skips_http_error (env_listing_fails (HTTPError 401))
             "personal" "t0" [("LOME-AI", "t1")] 401 blank_world eq_refl).
  reflexivity.
Defined.


(** ** A ready answer whose weeks are all zero *)

Section ZeroWeeks.

Context (env : Env).






End ZeroWeeks.


